(** * device_detector: the matching and reconciliation core

    A shallow embedding of [device_detector/parser/parser.py] and
    [device_detector/parser/client/browser.py], with the properties of
    the parser, the shared cache and the client-hint reconciliation that
    the specification states about them. *)

From Stdlib Require Import ZArith Ascii String List Lia.
From stdpp Require Import base option gmap strings list fin_maps.

Local Open Scope string_scope.
Local Open Scope Z_scope.

(** ** Python string operations used by the source *)

Module PyStr.

(** [s.replace(old, new)] for one-character [old] and [new]. *)
Fixpoint replace (old new : ascii) (s : string) : string :=
  match s with
  | EmptyString => EmptyString
  | String c s' =>
      String (if Ascii.eqb c old then new else c) (replace old new s')
  end.

(** [s.split(sep)] for a one-character separator: never the empty list,
    [''.split('.')] is [['']]. *)
Fixpoint split (sep : ascii) (s : string) : list string :=
  match s with
  | EmptyString => [EmptyString]
  | String c s' =>
      if Ascii.eqb c sep then EmptyString :: split sep s'
      else match split sep s' with
           | w :: ws => String c w :: ws
           | [] => [String c EmptyString]
           end
  end.

(** [sep.join(l)]. *)
Fixpoint join (sep : string) (l : list string) : string :=
  match l with
  | [] => EmptyString
  | [x] => x
  | x :: xs => x ++ sep ++ join sep xs
  end.

(** The slice [l[:n]] for a Python integer [n]: a negative [n] counts
    from the end. *)
Definition slice_to {A} (n : Z) (l : list A) : list A :=
  if 0 <=? n then firstn (Z.to_nat n) l
  else firstn (Z.to_nat (Z.of_nat (length l) + n)) l.

(** [s.lower()] on ASCII letters. *)
Definition lower_char (c : ascii) : ascii :=
  let n := nat_of_ascii c in
  if (65 <=? n)%nat && (n <=? 90)%nat then ascii_of_nat (n + 32) else c.

Fixpoint lower (s : string) : string :=
  match s with
  | EmptyString => EmptyString
  | String c s' => String (lower_char c) (lower s')
  end.

(** [s.find(needle)]: where [needle] first occurs in [s], if it does. *)
Fixpoint find (needle s : string) : option nat :=
  if String.prefix needle s then Some 0%nat
  else match s with
       | EmptyString => None
       | String _ s' => S <$> find needle s'
       end.

(** [needle in s]. *)
Definition contains (needle s : string) : bool :=
  match find needle s with Some _ => true | None => false end.

End PyStr.

(** ** [build_version] (parser.py, lines 14-37)

    [version_str] is annotated [str]; on a [str] the call chain
    [replace(...).split(...)] cannot raise [AttributeError], so the
    [except] arm belongs to ill-typed arguments only and has no
    counterpart on [string]. *)
Definition build_version (version_str : string) (truncation : Z) : string :=
  if truncation =? -1 then version_str
  else
    let retain_segments := truncation + 1 in
    let segments := PyStr.split "." (PyStr.replace "_" "." version_str) in
    if Z.of_nat (length segments) =? retain_segments then version_str
    else PyStr.join "." (PyStr.slice_to retain_segments segments).

(** The helper as the specification words it: split on ['.'] and ['_'],
    keep the first [keepSegments + 1] segments joined by dots, and give
    the input back when it has exactly that many segments. *)
Fixpoint spec_segments (s : string) : list string :=
  match s with
  | EmptyString => [EmptyString]
  | String c s' =>
      if Ascii.eqb c "." || Ascii.eqb c "_" then EmptyString :: spec_segments s'
      else match spec_segments s' with
           | w :: ws => String c w :: ws
           | [] => [String c EmptyString]
           end
  end.

Definition spec_truncate (version : string) (keepSegments : Z) : string :=
  if keepSegments =? -1 then version
  else if Z.of_nat (length (spec_segments version)) =? keepSegments + 1
       then version
       else PyStr.join "." (firstn (Z.to_nat (keepSegments + 1))
                                   (spec_segments version)).


(** ** The data model

    Rule records and identity records are Python dicts from field names
    to values.  The values that the two source files handle are text,
    [None], the list of version-condition sub-rules of a rule, and
    nested dicts (an engine descriptor, the record of an embedded
    client).  A nested dict is kept in insertion order, because
    [Browser.set_engine] iterates one. *)

(** What the source reads off a match object: [start()], [end()] and
    [groups()]; a group that took no part in the match is [None]. *)
Record Match := {
  m_start : nat;
  m_end : nat;
  m_groups : list (option string)
}.

(** A compiled pattern is what [search] does with it: given the text, a
    match somewhere in it or nothing.  The pattern language itself is
    outside the two source files. *)
Record Regex := { search : string -> option Match }.

#[warnings="-register-all"] Inductive Value :=
| VNone
| VStr (s : string)
| VVersions (vs : list (Regex * Value))
| VDict (items : list (string * Value)).

Abbreviation UaData := (gmap string Value).

(** Python truthiness. *)
Definition truthy (v : Value) : bool :=
  match v with
  | VNone => false
  | VStr s => negb (String.eqb s "")
  | VVersions vs => match vs with [] => false | _ => true end
  | VDict items => match items with [] => false | _ => true end
  end.

(** [d.get(k)] and [d.get(k, dflt)]. *)
Definition get (d : UaData) (k : string) : Value := default VNone (d !! k).
Definition get_or (d : UaData) (k : string) (dflt : Value) : Value :=
  default dflt (d !! k).

(** [a or b]. *)
Definition py_or (a b : Value) : Value := if truthy a then a else b.

(** [v == s] for a text literal [s]. *)
Definition is_str (v : Value) (s : string) : bool :=
  match v with VStr t => String.eqb t s | _ => false end.

(** [v in (s1, s2, ...)] for text literals. *)
Definition in_strs (v : Value) (l : list string) : bool :=
  existsb (is_str v) l.

(** [items.get(k)] on a nested dict. *)
Fixpoint assoc (items : list (string * Value)) (k : string) : option Value :=
  match items with
  | [] => None
  | (k', v) :: rest => if String.eqb k' k then Some v else assoc rest k
  end.

(** A rule of [regex_list]: the compiled pattern under ['regex'] and the
    other items of the dict. *)
Record Rule := {
  regex : Regex;
  fields : UaData
}.

(** The client-hint object; [client_data()] and [client_is_browser()]
    belong to a module outside the two files and are taken as given.  A
    parser holds such an object or [None]; the object counts as true. *)
Record ClientHints := {
  client_data : UaData;
  client_is_browser : bool
}.

(** [DDCache['user_agents']]: content hash, then cache name, then the
    stored record. *)
Abbreviation Cache := (gmap string (gmap string UaData)).

(** [DATE_VERSION = RegexLazy(r'^202[0-5]')] (browser.py, line 19),
    searched in a text: the text starts with 202 and a digit from 0 to 5. *)
Definition DATE_VERSION_search (s : string) : bool :=
  match s with
  | String "2" (String "0" (String "2" (String d _))) =>
      (48 <=? Z.of_nat (nat_of_ascii d)) && (Z.of_nat (nat_of_ascii d) <=? 53)
  | _ => false
  end.

(** What the two files take from the rest of the package. *)
Class Collaborators := {
  (** [NameExtractor(ua_data, groups).extract()] *)
  NameExtractor_extract : UaData -> list (option string) -> string;
  (** [VersionExtractor(ua_data, groups).extract()] *)
  VersionExtractor_extract : UaData -> list (option string) -> string;
  (** the pattern that [EngineVersion.parse] builds from [BOUNDED_REGEX]
      and the engine name, compiled with [IGNORECASE] *)
  engine_version_regex : string -> Regex;
  (** the text Python formats a value that is not text to *)
  repr : Value -> string;
  (** [str.lower] *)
  lower : string -> string;
  BROWSER_TO_ABBREV : gmap string string;
  FAMILY_FROM_ABBREV : gmap string string;
  (** [regex_list] of the [Engine] class, loaded by [RegexLoader] *)
  engine_regex_list : list Rule;
  (** [cache_name] of the [Engine] class *)
  engine_cache_name : string
}.

(** ** [class Parser] (parser.py, lines 40-194) *)

Module Parser.

(** The instance attributes that the methods below read or write.  The
    remaining slots ([app_name], [app_version], [os_details], ...) are
    only initialised in the two files. *)
Record t := {
  user_agent : string;
  ua_hash : string;
  ua_spaceless : string;
  ua_data : UaData;
  matched_regex : option Match;
  known : bool;
  secondary_client : UaData;
  client_hints : option ClientHints;
  ch_client_data : UaData
}.

Definition with_ua_data (self : t) (d : UaData) : t :=
  {| user_agent := user_agent self; ua_hash := ua_hash self;
     ua_spaceless := ua_spaceless self; ua_data := d;
     matched_regex := matched_regex self; known := known self;
     secondary_client := secondary_client self;
     client_hints := client_hints self;
     ch_client_data := ch_client_data self |}.

Definition with_secondary_client (self : t) (d : UaData) : t :=
  {| user_agent := user_agent self; ua_hash := ua_hash self;
     ua_spaceless := ua_spaceless self; ua_data := ua_data self;
     matched_regex := matched_regex self; known := known self;
     secondary_client := d;
     client_hints := client_hints self;
     ch_client_data := ch_client_data self |}.

(** The three assignments of [_parse] on a match. *)
Definition with_match (self : t) (m : Match) (d : UaData) : t :=
  {| user_agent := user_agent self; ua_hash := ua_hash self;
     ua_spaceless := ua_spaceless self; ua_data := d;
     matched_regex := Some m; known := true;
     secondary_client := secondary_client self;
     client_hints := client_hints self;
     ch_client_data := ch_client_data self |}.

(** [__init__] (lines 63-86). *)
Definition __init__ (ua ua_hash ua_spaceless : string)
    (client_hints : option ClientHints) : t :=
  {| user_agent := ua; ua_hash := ua_hash; ua_spaceless := ua_spaceless;
     ua_data := ∅; matched_regex := None; known := false;
     secondary_client := ∅; client_hints := client_hints;
     ch_client_data :=
       match client_hints with Some ch => client_data ch | None => ∅ end |}.

(** What a class contributes: the attributes that [RegexLoader] supplies
    and the two methods that subclasses override. *)
Record Class := {
  cache_name : string;
  regex_list : list Rule;
  do__parse : t -> t;
  do_set_details : t -> Cache -> option (t * Cache)
}.

(** [get_from_cache] (lines 88-93): the cached record or [None] when the
    hash is known, [{}] and a fresh entry for the hash when it is not. *)
Definition get_from_cache (cache_name : string) (self : t) (c : Cache)
    : option UaData * Cache :=
  match c !! ua_hash self with
  | Some entry => (entry !! cache_name, c)
  | None => (Some ∅, <[ua_hash self := ∅]> c)
  end.

(** [add_to_cache] (lines 95-97); [KeyError] when the hash has no entry.
    The cache holds the very dict that [self.ua_data] names; [parse]
    changes nothing in it once it is stored, so within a parse the
    stored value is the record. *)
Definition add_to_cache (cache_name : string) (self : t) (c : Cache)
    : option Cache :=
  match c !! ua_hash self with
  | Some entry =>
      Some (<[ua_hash self := <[cache_name := ua_data self]> entry]> c)
  | None => None
  end.

(** [_parse] (lines 99-107): the loop with its early return. *)
Fixpoint _parse (regex_list : list Rule) (self : t) : t :=
  match regex_list with
  | [] => self
  | rule :: rest =>
      match search (regex rule) (user_agent self) with
      | Some matched => with_match self matched (fields rule ∪ ua_data self)
      | None => _parse rest self
      end
  end.

(** The loop of [extract_version] (lines 137-140). *)
Fixpoint first_version (versions : list (Regex * Value)) (ua : string)
    : option Value :=
  match versions with
  | [] => None
  | (re, v) :: rest =>
      match search re ua with
      | Some _ => Some v
      | None => first_version rest ua
      end
  end.

(** [extract_version] (lines 131-140).  [pop('versions', [])] takes the
    key out; iterating [None], or indexing the elements of a text or of
    a dict by ['regex'], raises [TypeError]. *)
Definition extract_version (self : t) : option t :=
  match ua_data self !! "versions" with
  | None => Some self
  | Some popped =>
      let d := delete "versions" (ua_data self) in
      match popped with
      | VVersions versions =>
          match first_version versions (user_agent self) with
          | Some v => Some (with_ua_data self (<["version" := v]> d))
          | None => Some (with_ua_data self d)
          end
      | VStr EmptyString | VDict [] => Some (with_ua_data self d)
      | _ => None
      end
  end.

(** [set_details] (lines 142-158). *)
Definition set_details `{Collaborators} (self : t) : t :=
  let groups :=
    match matched_regex self with
    | Some m => m_groups m
    | None => []
    end in
  let d0 := ua_data self in
  let d1 :=
    match groups with
    | [] => d0
    | _ =>
        let dn :=
          match d0 !! "name" with
          | Some _ => <["name" := VStr (NameExtractor_extract d0 groups)]> d0
          | None => d0
          end in
        match dn !! "version" with
        | Some _ => <["version" := VStr (VersionExtractor_extract dn groups)]> dn
        | None => dn
        end
    end in
  if negb (truthy (get d1 "name")) && truthy (get d1 "version")
  then with_ua_data self (<["version" := VStr ""]> d1)
  else with_ua_data self d1.

(** [extract_details] (lines 122-129). *)
Definition extract_details (cls : Class) (self : t) (c : Cache)
    : option (t * Cache) :=
  self1 ← extract_version self;
  '(self2, c2) ← do_set_details cls self1 c;
  c3 ← add_to_cache (cache_name cls) self2 c2;
  Some (self2, c3).

(** [parse] (lines 109-120). *)
Definition parse (cls : Class) (self : t) (c : Cache) : option (t * Cache) :=
  let '(details, c1) := get_from_cache (cache_name cls) self c in
  let hit :=
    match details with
    | Some d => negb (bool_decide (d = ∅))
    | None => false
    end in
  if hit then Some (self, c1)
  else extract_details cls (do__parse cls self) c1.

(** [name], [version], [is_known] (lines 160-164, 181-184). *)
Definition name (self : t) : Value := get_or (ua_data self) "name" (VStr "").
Definition version (self : t) : Value :=
  get_or (ua_data self) "version" (VStr "").
Definition is_known (self : t) : bool := negb (bool_decide (ua_data self = ∅)).

(** [secondary_name] (lines 166-169); indexing raises [KeyError]. *)
Definition secondary_name (self : t) : option Value :=
  if bool_decide (secondary_client self = ∅) then Some (VStr "")
  else secondary_client self !! "name".

(** The class [Parser] itself, for a given [cache_name] and
    [regex_list]. *)
Definition cls `{Collaborators} (cache_name : string) (regex_list : list Rule)
    : Class :=
  {| cache_name := cache_name; regex_list := regex_list;
     do__parse := _parse regex_list;
     do_set_details := fun self c => Some (set_details self, c) |}.

End Parser.

(** Python's text for a value, as an f-string or [str.format] inserts
    it. *)
Definition py_str `{Collaborators} (v : Value) : string :=
  match v with VStr s => s | _ => repr v end.

(** [s.endswith(suffix)]. *)
Definition endswith (s suffix : string) : bool :=
  let n := String.length s in
  let m := String.length suffix in
  (m <=? n)%nat && String.eqb (substring (n - m) m s) suffix.

(** ** [class EngineVersion] (browser.py, lines 22-41) *)

Module EngineVersion.

(** [parse]: the text of the match is cut at ['/'] and its second piece
    returned; [IndexError] is swallowed. *)
Definition parse `{Collaborators} (user_agent : string) (engine : Value)
    : string :=
  if negb (truthy engine) then ""
  else
    match search (engine_version_regex (py_str engine)) user_agent with
    | Some m =>
        let engine_version :=
          substring (m_start m) (m_end m - m_start m) user_agent in
        match PyStr.split "/" engine_version with
        | _ :: second :: _ => second
        | _ => ""
        end
    | None => ""
    end.

End EngineVersion.

(** ** [class BaseClientParser]

    The class between [Parser] and the client parsers lies outside the
    two files.  [Engine] and [Browser] are taken to inherit [_parse] and
    [set_details] from [Parser] through it. *)

Module BaseClientParser.

(** Modelled from the spec: [BaseClientParser.set_data_from_client_hints]
    is missing from the source; section 4.3, case 7 gives it as the
    generic field-by-field overwrite of the UA record by any client-hint
    field that is present, and case 1 as leaving the record alone when
    there are no hints. *)
Definition set_data_from_client_hints (self : Parser.t) : Parser.t :=
  match Parser.client_hints self with
  | None => self
  | Some ch =>
      Parser.with_ua_data self (client_data ch ∪ Parser.ua_data self)
  end.

End BaseClientParser.

(** ** [class Engine] (browser.py, lines 44-59) *)

Module Engine.

Definition _parse `{Collaborators} (self : Parser.t) : Parser.t :=
  let self1 := Parser._parse engine_regex_list self in
  match Parser.ua_data self1 !! "name" with
  | Some engine =>
      Parser.with_ua_data self1
        (<["engine_version" :=
             VStr (EngineVersion.parse (Parser.user_agent self1) engine)]>
           (Parser.ua_data self1))
  | None => self1
  end.

Definition cls `{Collaborators} : Parser.Class :=
  {| Parser.cache_name := engine_cache_name;
     Parser.regex_list := engine_regex_list;
     Parser.do__parse := _parse;
     Parser.do_set_details := fun self c => Some (Parser.set_details self, c) |}.

End Engine.

(** ** [class Browser] (browser.py, lines 62-238) *)

(** What [Browser] takes from the rest of the package. *)
Class ClientCollaborators := {
  (** [regex_list] and [cache_name] of the [Browser] class *)
  browser_regex_list : list Rule;
  browser_cache_name : string;
  (** [CHECK_PAIRS], the names of the browsers that often carry an
      embedded application *)
  CHECK_PAIRS : list string;
  (** [name_version_pairs()] of [BaseClientParser]: code, name, version *)
  name_version_pairs : Parser.t -> list (string * string * string);
  (** the two extractor classes *)
  NameVersionExtractor : Parser.Class;
  WholeNameExtractor : Parser.Class
}.

Module Browser.

(** [has_interesting_pair] (lines 85-97). *)
Definition has_interesting_pair `{Collaborators} `{ClientCollaborators}
    (self : Parser.t) : bool :=
  existsb
    (fun '(_, name, _) =>
       (2 <? String.length name)%nat &&
       negb (endswith (lower name) "build" || endswith (lower name) "version"))
    (name_version_pairs self).

(** [set_data_from_client_hints] (lines 104-158).  [DATE_VERSION.search]
    raises [TypeError] on a version that is not text. *)
Definition set_data_from_client_hints `{Collaborators} (self : Parser.t)
    : option Parser.t :=
  match Parser.client_hints self with
  | None => Some self
  | Some ch =>
      let ch_data := client_data ch in
      if bool_decide (Parser.ua_data self = ∅) && client_is_browser ch
      then Some (Parser.with_ua_data self ch_data)
      else if truthy (get ch_data "app_id")
      then Some (Parser.with_ua_data self (ch_data ∪ Parser.ua_data self))
      else
        let ch_name := py_or (get ch_data "name") (VStr "") in
        let ch_version := py_or (get ch_data "version") (VStr "") in
        let ua_name := get_or (Parser.ua_data self) "name" (VStr "") in
        let ua_short_name :=
          get_or (Parser.ua_data self) "short_name" (VStr "") in
        if is_str ch_name "DuckDuckGo Privacy Browser"
        then
          let self1 := BaseClientParser.set_data_from_client_hints self in
          Some (Parser.with_ua_data self1
                  (<["engine_version" := ch_version]>
                     (<["version" := VStr ""]> (Parser.ua_data self1))))
        else if truthy ua_name
                && in_strs ch_name ["Chromium"; "Chrome Webview"]
                && negb (in_strs ua_short_name ["CR"; "CV"; "AN"])
        then
          match ch_version with
          | VStr v =>
              if DATE_VERSION_search v
              then Some (Parser.with_ua_data self
                           (<["short_name" := VStr "I1"]>
                              (<["name" := VStr "Iridium"]>
                                 (Parser.ua_data self))))
              else Some (Parser.with_ua_data self
                           (<["short_name" := ua_short_name]>
                              (<["version" :=
                                   get_or (Parser.ua_data self) "version"
                                     (VStr "")]>
                                 (<["name" := ua_name]>
                                    (Parser.ua_data self)))))
          | _ => None
          end
        else
          let self1 := BaseClientParser.set_data_from_client_hints self in
          if is_str ua_name (py_str ch_name ++ " Mobile")
          then Some (Parser.with_ua_data self1
                       (<["short_name" := ua_short_name]>
                          (<["name" := ua_name]> (Parser.ua_data self1))))
          else Some self1
  end.

(** [short_name] (lines 160-161). *)
Definition short_name (self : Parser.t) : Value :=
  get_or (Parser.ua_data self) "short_name" VNone.

(** The loop at the end of [set_engine] (lines 197-201). *)
Definition engine_from_versions (client_version : Value)
    (versions : list (string * Value)) (d : UaData) : UaData :=
  fold_left
    (fun d kv => <["engine_version" := client_version]> (<["engine" := snd kv]> d))
    versions d.

(** [set_engine] (lines 163-201).  [AttributeError] when the name has no
    [lower], the engine no [get], or its versions no [items]. *)
Definition set_engine `{Collaborators} (self : Parser.t) (c : Cache)
    : option (Parser.t * Cache) :=
  if negb (truthy (get_or (Parser.ua_data self) "engine" (VStr "")))
  then Some (self, c)
  else
    match get_or (Parser.ua_data self) "name" (VStr "") with
    | VStr browser =>
        let abbreviation :=
          default browser (BROWSER_TO_ABBREV !! lower browser) in
        let family := default browser (FAMILY_FROM_ABBREV !! abbreviation) in
        let d1 :=
          <["family" := VStr family]>
            (<["short_name" := VStr abbreviation]> (Parser.ua_data self)) in
        match d1 !! "engine" with
        | None =>
            '(engine, c1) ←
              Parser.parse Engine.cls
                (Parser.__init__ (Parser.user_agent self) (Parser.ua_hash self)
                   (Parser.ua_spaceless self) (Parser.client_hints self)) c;
            Some (Parser.with_ua_data self
                    (<["engine" := VDict (map_to_list (Parser.ua_data engine))]> d1),
                  c1)
        | Some _ =>
            let client_version :=
              py_or (get_or (Parser.ch_client_data self) "version" (VStr ""))
                    (get_or d1 "version" (VStr "")) in
            match py_or (get d1 "engine") (VDict []) with
            | VDict engine =>
                match default (VDict []) (assoc engine "versions") with
                | VDict versions =>
                    Some (Parser.with_ua_data self
                            (engine_from_versions client_version versions d1),
                          c)
                | _ => None
                end
            | _ => None
            end
        end
    | _ => None
    end.

(** [get_secondary_client_data] (lines 220-238). *)
Definition get_secondary_client_data (extractor : Parser.Class)
    (self : Parser.t) (c : Cache) : option (Parser.t * Cache) :=
  '(parsed, c1) ←
    Parser.parse extractor
      (Parser.__init__ (Parser.user_agent self) (Parser.ua_hash self)
         (Parser.ua_spaceless self) (Parser.client_hints self)) c;
  if negb (bool_decide (Parser.ua_data parsed = ∅))
  then
    Some (Parser.with_ua_data
            (Parser.with_secondary_client self (Parser.ua_data parsed))
            (<["secondary_client" := VDict (map_to_list (Parser.ua_data parsed))]>
               (Parser.ua_data self)),
          c1)
  else Some (Parser.with_secondary_client self ∅, c1).

(** [check_secondary_client_data] (lines 206-218). *)
Definition check_secondary_client_data `{Collaborators} `{ClientCollaborators}
    (self : Parser.t) (c : Cache) : option (Parser.t * Cache) :=
  if in_strs (get_or (Parser.ua_data self) "name" (VStr "")) CHECK_PAIRS
  then
    if has_interesting_pair self
    then get_secondary_client_data NameVersionExtractor self c
    else get_secondary_client_data WholeNameExtractor self c
  else Some (self, c).

(** [set_details] (lines 99-102). *)
Definition set_details `{Collaborators} `{ClientCollaborators}
    (self : Parser.t) (c : Cache) : option (Parser.t * Cache) :=
  '(self1, c1) ← set_engine (Parser.set_details self) c;
  check_secondary_client_data self1 c1.

Definition cls `{Collaborators} `{ClientCollaborators} : Parser.Class :=
  {| Parser.cache_name := browser_cache_name;
     Parser.regex_list := browser_regex_list;
     Parser.do__parse := Parser._parse browser_regex_list;
     Parser.do_set_details := set_details |}.

End Browser.

(** ** Predicates of the statements *)

(** The pattern of a rule is not found in the text. *)
Definition no_match (text : string) (rule : Rule) : Prop :=
  search (regex rule) text = None.

(** The pattern of a version-condition sub-rule is not found in the
    text. *)
Definition sub_rule_no_match (text : string) (sub : Regex * Value) : Prop :=
  search (fst sub) text = None.

(** ** Concrete collaborators

    Patterns without metacharacters or groups, for which a search is a
    search for the text itself, and the simplest choices for the rest;
    used to run the definitions on examples. *)

Definition literal (pattern : string) : Regex :=
  {| search := fun text =>
       match PyStr.find pattern text with
       | Some i =>
           Some {| m_start := i; m_end := i + String.length pattern;
                   m_groups := [] |}
       | None => None
       end |}.

Definition field_text (k : string) (d : UaData) (groups : list (option string))
    : string :=
  match get d k with VStr s => s | _ => "" end.

#[local] Instance plain : Collaborators :=
  {| NameExtractor_extract := field_text "name";
     VersionExtractor_extract := field_text "version";
     engine_version_regex := literal;
     repr := fun _ => "";
     lower := PyStr.lower;
     BROWSER_TO_ABBREV := {[ "chrome" := "CH"; "chrome mobile" := "CM" ]};
     FAMILY_FROM_ABBREV := {[ "CH" := "Chrome"; "CM" := "Chrome" ]};
     engine_regex_list :=
       [ {| regex := literal "AppleWebKit";
            fields := {[ "name" := VStr "WebKit" ]} |} ];
     engine_cache_name := "engine" |}.

Definition chrome_rule : Rule :=
  {| regex := literal "Chrome"; fields := {[ "name" := VStr "Chrome" ]} |}.

Definition chrome_mobile_rule : Rule :=
  {| regex := literal "Chrome Mobile";
     fields := {[ "name" := VStr "Chrome Mobile" ]} |}.

(** A Windows rule after its match: the version template of the rule
    and its two version-condition sub-rules. *)
Definition windows_versions : list (Regex * Value) :=
  [ (literal "Windows NT 6.1", VStr "7");
    (literal "Windows NT 10.0", VStr "10") ].

Definition windows_parser : Parser.t :=
  Parser.with_match
    (Parser.__init__ "Mozilla/5.0 (Windows NT 10.0; Win64; x64)" "h3"
       "Mozilla/5.0(WindowsNT10.0;Win64;x64)" None)
    {| m_start := 13; m_end := 20; m_groups := [] |}
    {[ "name" := VStr "Windows"; "version" := VStr "NT";
       "versions" := VVersions windows_versions ]}.

(** A desktop Chrome request, as the constructor of a parser gets it. *)
Definition chrome_request : Parser.t :=
  Parser.__init__ "Mozilla/5.0 (X11; Linux x86_64) Chrome/120.0.0.0"
    "9f2c" "Mozilla/5.0(X11;Linuxx86_64)Chrome/120.0.0.0" None.

#[local] Instance plain_client : ClientCollaborators :=
  {| browser_regex_list := [chrome_mobile_rule; chrome_rule];
     browser_cache_name := "browser";
     CHECK_PAIRS := ["Chrome Mobile"];
     name_version_pairs := fun _ => [];
     NameVersionExtractor := Parser.cls "name_version_extractor" [];
     WholeNameExtractor := Parser.cls "whole_name_extractor" [] |}.

(** A request whose user agent names AppleWebKit, which the engine rule
    of [plain] finds, and the [Browser] parser for it right after the
    main match: the rule for "Chrome" names no engine. *)
Definition webkit_request : Parser.t :=
  Parser.__init__
    "Mozilla/5.0 (X11; Linux x86_64) AppleWebKit/537.36 Chrome/120.0.0.0"
    "77aa" "Mozilla/5.0(X11;Linuxx86_64)AppleWebKit/537.36Chrome/120.0.0.0"
    None.

Definition webkit_browser : Parser.t :=
  Parser._parse browser_regex_list webkit_request.

(** "No version without a name", on the accessors of a record. *)
Definition no_version_without_name (self : Parser.t) : Prop :=
  truthy (Parser.version self) = true -> truthy (Parser.name self) = true.

(** Text or nothing: what [DATE_VERSION.search] accepts once [or '']
    has replaced a missing value. *)
Definition textual (v : Value) : bool :=
  match v with VStr _ | VNone => true | _ => false end.

(** A parsed browser record together with the client hints of the
    request. *)
Definition reconciled_input (d : UaData) (hints : UaData) : Parser.t :=
  Parser.with_ua_data
    (Parser.__init__ "Mozilla/5.0 (Linux; Android 13) Chrome/120.0.0.0 Mobile"
       "c41d" "Mozilla/5.0(Linux;Android13)Chrome/120.0.0.0Mobile"
       (Some {| client_data := hints; client_is_browser := true |}))
    d.

(** The calendar-year pattern as the specification words it: four
    digits, of which the first three are 202. *)
Definition spec_year_pattern (s : string) : bool :=
  match s with
  | String "2" (String "0" (String "2" (String d _))) =>
      (48 <=? Z.of_nat (nat_of_ascii d)) && (Z.of_nat (nat_of_ascii d) <=? 57)
  | _ => false
  end.

Definition chrome_mobile_record : UaData :=
  {[ "name" := VStr "Chrome Mobile"; "short_name" := VStr "CM";
     "version" := VStr "120.0.0.0" ]}.

Definition brave_record : UaData :=
  {[ "name" := VStr "Brave"; "short_name" := VStr "BR";
     "version" := VStr "1.60" ]}.

(** Hints of an application that reports its identifier and version but
    no brand. *)
Definition unnamed_app_hints : UaData :=
  {[ "name" := VStr ""; "version" := VStr "5.0";
     "app_id" := VStr "com.example.app" ]}.

Definition chrome_hints : UaData :=
  {[ "name" := VStr "Chrome"; "version" := VStr "120.0.6099.43" ]}.

Definition duckduckgo_hints : UaData :=
  {[ "name" := VStr "DuckDuckGo Privacy Browser"; "version" := VStr "7.1" ]}.

Definition duckduckgo_app_hints : UaData :=
  {[ "name" := VStr "DuckDuckGo Privacy Browser"; "version" := VStr "7.1";
     "app_id" := VStr "com.duckduckgo.mobile.android" ]}.

Definition chromium_hints (version : string) : UaData :=
  {[ "name" := VStr "Chromium"; "version" := VStr version ]}.

Definition chromium_app_hints : UaData :=
  {[ "name" := VStr "Chromium"; "version" := VStr "2024.03";
     "app_id" := VStr "com.brave.browser" ]}.

(** ** Further notions for the properties of the code *)

(** [c in s] for a character. *)
Fixpoint has_char (c : ascii) (s : string) : bool :=
  match s with
  | EmptyString => false
  | String a s' => Ascii.eqb a c || has_char c s'
  end.

(** The segments [build_version] works on. *)
Definition version_segments (version_str : string) : list string :=
  PyStr.split "." (PyStr.replace "_" "." version_str).

(** The key ['versions'] is missing or holds a list of sub-rules: the
    shape under which [extract_version] can iterate. *)
Definition listed_versions (d : UaData) : Prop :=
  d !! "versions" = None \/ exists vs, d !! "versions" = Some (VVersions vs).

(** A stand-in for the pattern of [EngineVersion.parse]: the engine
    name, a slash, and the run of digits and dots after it. *)
Definition version_char (c : ascii) : bool :=
  Ascii.eqb c "." ||
  ((48 <=? nat_of_ascii c)%nat && (nat_of_ascii c <=? 57)%nat).

Fixpoint version_run (s : string) : nat :=
  match s with
  | EmptyString => 0%nat
  | String c s' => if version_char c then S (version_run s') else 0%nat
  end.

Definition engine_slash_version (engine : string) : Regex :=
  {| search := fun text =>
       match PyStr.find (engine ++ "/") text with
       | Some i =>
           let after := (i + String.length engine + 1)%nat in
           let rest :=
             substring after (String.length text - after) text in
           Some {| m_start := i; m_end := (after + version_run rest)%nat;
                   m_groups := [] |}
       | None => None
       end |}.

(** [plain] with that pattern; not an instance, so that [plain] stays
    the one found by default. *)
Definition slashed : Collaborators :=
  {| NameExtractor_extract := field_text "name";
     VersionExtractor_extract := field_text "version";
     engine_version_regex := engine_slash_version;
     repr := fun _ => "";
     lower := PyStr.lower;
     BROWSER_TO_ABBREV := {[ "chrome" := "CH"; "chrome mobile" := "CM" ]};
     FAMILY_FROM_ABBREV := {[ "CH" := "Chrome"; "CM" := "Chrome" ]};
     engine_regex_list :=
       [ {| regex := literal "AppleWebKit";
            fields := {[ "name" := VStr "AppleWebKit" ]} |} ];
     engine_cache_name := "engine" |}.

(** Browser records after the main match whose rule carries an engine
    descriptor, with and without a mapping of versions. *)
Definition blink_descriptor : list (string * Value) :=
  [ ("default", VStr "WebKit");
    ("versions", VDict [ ("28", VStr "Blink") ]) ].

Definition blink_browser : Parser.t :=
  Parser.with_ua_data chrome_request
    {[ "name" := VStr "Chrome"; "version" := VStr "120.0.0.0";
       "engine" := VDict blink_descriptor ]}.

Definition default_only_descriptor : list (string * Value) :=
  [ ("default", VStr "WebKit") ].

Definition default_only_browser : Parser.t :=
  Parser.with_ua_data chrome_request
    {[ "name" := VStr "Chrome"; "version" := VStr "120.0.0.0";
       "engine" := VDict default_only_descriptor ]}.

(** A Chrome Mobile request, whose name is in the [CHECK_PAIRS] of
    [plain_client]. *)
Definition chrome_mobile_request : Parser.t :=
  Parser.__init__ "Mozilla/5.0 (Linux; Android 13) Chrome Mobile/120.0"
    "5b1e" "Mozilla/5.0(Linux;Android13)ChromeMobile/120.0" None.

(** [blink_browser] after [set_engine]. *)
Definition blink_resolved : Parser.t :=
  Parser.with_ua_data blink_browser
    (<["engine_version" := VStr "120.0.0.0"]>
       (<["engine" := VStr "Blink"]>
          (<["family" := VStr "Chrome"]>
             (<["short_name" := VStr "CH"]> (Parser.ua_data blink_browser))))).

(** * Properties *)

(** ** [build_version] *)

Lemma build_version_no_truncation (v : string) : build_version v (-1) = v.
Proof. reflexivity. Qed.

Example build_version_single_segment : build_version "10" 1 = "10".
Proof. reflexivity. Qed.

(** Replacing underscores by dots and splitting on dots is splitting on
    both characters. *)
Lemma split_replace_spec_segments (s : string) :
  PyStr.split "." (PyStr.replace "_" "." s) = spec_segments s.
Proof.
  induction s as [|c s IH]; [reflexivity|].
  cbn [PyStr.replace PyStr.split spec_segments]. rewrite IH.
  destruct (Ascii.eqb c "_") eqn:Hu.
  - rewrite orb_true_r. reflexivity.
  - rewrite orb_false_r. reflexivity.
Qed.

(** From [keepSegments = -1] upwards the code is the helper of the
    specification. *)
Lemma build_version_refines_spec (v : string) (k : Z) :
  -1 <= k -> build_version v k = spec_truncate v k.
Proof.
  intros Hk. unfold build_version, spec_truncate.
  rewrite split_replace_spec_segments.
  destruct (k =? -1); [reflexivity|].
  destruct (_ =? k + 1); [reflexivity|].
  unfold PyStr.slice_to.
  destruct (0 <=? k + 1) eqn:H0; [reflexivity|].
  apply Z.leb_gt in H0. lia.
Qed.

(** Below [-1] the slice [segments[:retain_segments]] counts from the
    end and drops trailing segments. *)
Example build_version_negative : build_version "1.2.3" (-2) = "1.2".
Proof. reflexivity. Qed.

(** C6. [build_version] with truncation 1 keeps [truncation + 1 = 2]
    segments: on ["10.0.16299.371"] it returns ["10.0"], where the
    docstring of the function (and the specification's example) give
    ["10"]. *)
Theorem build_version_docstring_example :
  build_version "10.0.16299.371" 1 = "10.0" /\
  build_version "10.0.16299.371" 1 <> "10".
Proof. split; [reflexivity | discriminate]. Qed.

(** ** The shared cache *)

Lemma get_from_cache_known_hash (cache_name : string) (self : Parser.t)
    (c : Cache) (entry : gmap string UaData) :
  c !! Parser.ua_hash self = Some entry ->
  Parser.get_from_cache cache_name self c = (entry !! cache_name, c).
Proof. intros Hc. unfold Parser.get_from_cache. by rewrite Hc. Qed.

(** C10. A lookup for a hash that the cache does not hold answers [{}]
    and leaves an empty entry under the hash: the cache is changed, and
    the same lookup repeated finds the entry, answers [None] and changes
    nothing more. *)
Theorem get_from_cache_miss_inserts (cache_name : string) (self : Parser.t)
    (c : Cache) :
  c !! Parser.ua_hash self = None ->
  Parser.get_from_cache cache_name self c
    = (Some ∅, <[Parser.ua_hash self := ∅]> c) /\
  <[Parser.ua_hash self := ∅]> c <> c /\
  (<[Parser.ua_hash self := ∅]> c) !! Parser.ua_hash self = Some ∅ /\
  Parser.get_from_cache cache_name self (<[Parser.ua_hash self := ∅]> c)
    = (None, <[Parser.ua_hash self := ∅]> c).
Proof.
  intros Hmiss. repeat split.
  - unfold Parser.get_from_cache. by rewrite Hmiss.
  - intros Heq. rewrite <- Heq in Hmiss.
    by rewrite lookup_insert_eq in Hmiss.
  - apply lookup_insert_eq.
  - erewrite get_from_cache_known_hash by apply lookup_insert_eq.
    by rewrite lookup_empty.
Qed.

Lemma get_from_cache_miss_inserts_witness :
  Parser.get_from_cache "browser" (Parser.__init__ "Chrome" "h1" "Chrome" None) ∅
    = (Some ∅, <["h1" := ∅]> ∅) /\
  <["h1" := ∅]> (∅ : Cache) <> ∅ /\
  (<["h1" := ∅]> (∅ : Cache)) !! "h1" = Some ∅ /\
  Parser.get_from_cache "browser" (Parser.__init__ "Chrome" "h1" "Chrome" None)
    (<["h1" := ∅]> ∅) = (None, <["h1" := ∅]> ∅).
Proof.
  apply (get_from_cache_miss_inserts "browser"
           (Parser.__init__ "Chrome" "h1" "Chrome" None) ∅).
  reflexivity.
Defined.

(** ** The matcher *)

Lemma _parse_no_match (rules : list Rule) (self : Parser.t) :
  Forall (no_match (Parser.user_agent self)) rules ->
  Parser._parse rules self = self.
Proof.
  induction 1 as [|rule rules Hrule _ IH]; [reflexivity|].
  cbn [Parser._parse]. unfold no_match in Hrule. by rewrite Hrule.
Qed.

Lemma _parse_first_match (pre post : list Rule) (rule : Rule)
    (self : Parser.t) (m : Match) :
  Forall (no_match (Parser.user_agent self)) pre ->
  search (regex rule) (Parser.user_agent self) = Some m ->
  Parser._parse (pre ++ rule :: post) self
    = Parser.with_match self m (fields rule ∪ Parser.ua_data self).
Proof.
  intros Hpre Hm. induction Hpre as [|r pre Hr _ IH].
  - cbn [app Parser._parse]. by rewrite Hm.
  - cbn [app Parser._parse]. unfold no_match in Hr. by rewrite Hr.
Qed.

Lemma search_literal (pattern text : string) :
  PyStr.contains pattern text = true ->
  exists m, search (literal pattern) text = Some m.
Proof.
  unfold PyStr.contains, literal. cbn [search].
  destruct (PyStr.find pattern text); [eauto | discriminate].
Qed.

(** C3. [_parse] adopts the first rule of the list whose pattern is
    found in the input: the rules before it did not match, the rules
    after it have no influence on the outcome.  With the two literal
    rules for "Chrome Mobile" and "Chrome", an input that contains both
    texts gets the name of whichever rule is listed first. *)
Theorem first_match_wins :
  (forall (pre post post' : list Rule) (rule : Rule) (self : Parser.t)
          (m : Match),
     Forall (no_match (Parser.user_agent self)) pre ->
     search (regex rule) (Parser.user_agent self) = Some m ->
     Parser._parse (pre ++ rule :: post) self
       = Parser.with_match self m (fields rule ∪ Parser.ua_data self) /\
     Parser._parse (pre ++ rule :: post') self
       = Parser._parse (pre ++ rule :: post) self) /\
  (forall (ua ua_hash ua_spaceless : string) (hints : option ClientHints),
     PyStr.contains "Chrome Mobile" ua = true ->
     PyStr.contains "Chrome" ua = true ->
     Parser.name
       (Parser._parse [chrome_mobile_rule; chrome_rule]
          (Parser.__init__ ua ua_hash ua_spaceless hints))
       = VStr "Chrome Mobile" /\
     Parser.name
       (Parser._parse [chrome_rule; chrome_mobile_rule]
          (Parser.__init__ ua ua_hash ua_spaceless hints))
       = VStr "Chrome").
Proof.
  split.
  - intros pre post post' rule self m Hpre Hm.
    rewrite !(_parse_first_match pre _ rule self m) by assumption. done.
  - intros ua ua_hash ua_spaceless hints Hmobile Hchrome.
    apply search_literal in Hmobile as [m1 Hm1].
    apply search_literal in Hchrome as [m2 Hm2].
    split.
    + rewrite (_parse_first_match [] [chrome_rule] chrome_mobile_rule _ m1)
        by (constructor || exact Hm1).
      reflexivity.
    + rewrite (_parse_first_match [] [chrome_mobile_rule] chrome_rule _ m2)
        by (constructor || exact Hm2).
      reflexivity.
Qed.

Lemma first_match_wins_witness :
  (Parser._parse ([chrome_mobile_rule] ++ chrome_rule :: [])
     (Parser.__init__ "Mozilla/5.0 Chrome/96.0" "h2" "Mozilla/5.0Chrome/96.0" None)
     = Parser.with_match
         (Parser.__init__ "Mozilla/5.0 Chrome/96.0" "h2" "Mozilla/5.0Chrome/96.0" None)
         {| m_start := 12; m_end := 18; m_groups := [] |}
         (fields chrome_rule ∪ ∅) /\
   Parser._parse ([chrome_mobile_rule] ++ chrome_rule :: [chrome_mobile_rule])
     (Parser.__init__ "Mozilla/5.0 Chrome/96.0" "h2" "Mozilla/5.0Chrome/96.0" None)
     = Parser._parse ([chrome_mobile_rule] ++ chrome_rule :: [])
         (Parser.__init__ "Mozilla/5.0 Chrome/96.0" "h2" "Mozilla/5.0Chrome/96.0" None)) /\
  (Parser.name
     (Parser._parse [chrome_mobile_rule; chrome_rule]
        (Parser.__init__ "Mozilla/5.0 (Linux; Android 10) Chrome Mobile/96.0"
           "h1" "Mozilla/5.0(Linux;Android10)ChromeMobile/96.0" None))
     = VStr "Chrome Mobile" /\
   Parser.name
     (Parser._parse [chrome_rule; chrome_mobile_rule]
        (Parser.__init__ "Mozilla/5.0 (Linux; Android 10) Chrome Mobile/96.0"
           "h1" "Mozilla/5.0(Linux;Android10)ChromeMobile/96.0" None))
     = VStr "Chrome").
Proof.
  split.
  - apply (proj1 first_match_wins [chrome_mobile_rule] []
             [chrome_mobile_rule] chrome_rule
             (Parser.__init__ "Mozilla/5.0 Chrome/96.0" "h2"
                "Mozilla/5.0Chrome/96.0" None)).
    + constructor; [reflexivity | constructor].
    + reflexivity.
  - apply (proj2 first_match_wins
             "Mozilla/5.0 (Linux; Android 10) Chrome Mobile/96.0" "h1"
             "Mozilla/5.0(Linux;Android10)ChromeMobile/96.0" None);
      reflexivity.
Defined.

(** ** Version-condition sub-rules *)

Lemma first_version_none (versions : list (Regex * Value)) (ua : string) :
  Forall (sub_rule_no_match ua) versions ->
  Parser.first_version versions ua = None.
Proof.
  induction 1 as [|[re v] versions Hsub _ IH]; [reflexivity|].
  cbn [Parser.first_version]. unfold sub_rule_no_match in Hsub.
  cbn [fst] in Hsub. by rewrite Hsub.
Qed.

Lemma first_version_some (pre post : list (Regex * Value)) (re : Regex)
    (v : Value) (ua : string) :
  Forall (sub_rule_no_match ua) pre ->
  is_Some (search re ua) ->
  Parser.first_version (pre ++ (re, v) :: post) ua = Some v.
Proof.
  intros Hpre [m Hm]. induction Hpre as [|[re' v'] pre Hsub _ IH].
  - cbn [app Parser.first_version]. by rewrite Hm.
  - cbn [app Parser.first_version]. unfold sub_rule_no_match in Hsub.
    cbn [fst] in Hsub. by rewrite Hsub.
Qed.

(** C8. When the record carries the list of version-condition sub-rules
    of the matched rule, [extract_version] tries them in their order
    against the whole user agent, whatever the main match captured: the
    first one found puts its fixed version in the record, in place of
    the version taken from the rule; when none is found the version of
    the record is left as it was.  The list itself is taken out of the
    record either way. *)
Theorem extract_version_first_sub_rule (self : Parser.t)
    (versions : list (Regex * Value)) :
  Parser.ua_data self !! "versions" = Some (VVersions versions) ->
  (forall (pre post : list (Regex * Value)) (re : Regex) (v : Value),
     versions = (pre ++ (re, v) :: post)%list ->
     Forall (sub_rule_no_match (Parser.user_agent self)) pre ->
     is_Some (search re (Parser.user_agent self)) ->
     exists self',
       Parser.extract_version self = Some self' /\
       Parser.ua_data self'
         = <["version" := v]> (delete "versions" (Parser.ua_data self)) /\
       Parser.version self' = v /\
       Parser.matched_regex self' = Parser.matched_regex self) /\
  (Forall (sub_rule_no_match (Parser.user_agent self)) versions ->
     exists self',
       Parser.extract_version self = Some self' /\
       Parser.ua_data self' = delete "versions" (Parser.ua_data self) /\
       Parser.version self' = Parser.version self /\
       Parser.matched_regex self' = Parser.matched_regex self).
Proof.
  intros Hversions. split.
  - intros pre post re v -> Hpre Hre.
    eexists. unfold Parser.extract_version. rewrite Hversions.
    rewrite (first_version_some pre post re v _ Hpre Hre).
    repeat split.
    unfold Parser.version, get_or. cbn [Parser.ua_data Parser.with_ua_data].
    by rewrite lookup_insert_eq.
  - intros Hnone.
    eexists. unfold Parser.extract_version. rewrite Hversions.
    rewrite (first_version_none _ _ Hnone).
    repeat split.
    unfold Parser.version, get_or. cbn [Parser.ua_data Parser.with_ua_data].
    by rewrite lookup_delete_ne.
Qed.

Lemma extract_version_first_sub_rule_witness :
  exists self',
    Parser.extract_version windows_parser = Some self' /\
    Parser.ua_data self'
      = <["version" := VStr "10"]>
          (delete "versions" (Parser.ua_data windows_parser)) /\
    Parser.version self' = VStr "10" /\
    Parser.matched_regex self' = Parser.matched_regex windows_parser.
Proof.
  apply (proj1 (extract_version_first_sub_rule windows_parser
                  windows_versions eq_refl)
           [(literal "Windows NT 6.1", VStr "7")] []
           (literal "Windows NT 10.0") (VStr "10")).
  - reflexivity.
  - constructor; [reflexivity | constructor].
  - eexists. reflexivity.
Defined.

(** ** Parsing *)

Section Parsing.

Context `{Collaborators}.

Lemma set_details_nothing_matched (self : Parser.t) :
  Parser.matched_regex self = None ->
  Parser.ua_data self = ∅ ->
  Parser.set_details self = Parser.with_ua_data self ∅.
Proof.
  intros Hm Hd. unfold Parser.set_details. rewrite Hm, Hd.
  unfold get. rewrite !lookup_empty. reflexivity.
Qed.

(** A hit: the hash has an entry that holds a non-empty record under
    the cache name of the class.  [parse] then returns the parser as it
    got it and neither reads the record into it nor touches the cache. *)
Lemma parse_hit_returns_self (cls : Parser.Class) (self : Parser.t)
    (c : Cache) (entry : gmap string UaData) (d : UaData) :
  c !! Parser.ua_hash self = Some entry ->
  entry !! Parser.cache_name cls = Some d ->
  d <> ∅ ->
  Parser.parse cls self c = Some (self, c).
Proof.
  intros Hc He Hd. unfold Parser.parse.
  rewrite (get_from_cache_known_hash _ _ _ _ Hc), He.
  by rewrite bool_decide_eq_false_2.
Qed.

(** A class whose [_parse] and [set_details] leave a new parser as it
    is: [parse] returns that parser, whatever the cache holds. *)
Lemma parse_nothing_found (cls : Parser.Class)
    (ua ua_hash ua_spaceless : string) (hints : option ClientHints)
    (c : Cache) :
  Parser.do__parse cls (Parser.__init__ ua ua_hash ua_spaceless hints)
    = Parser.__init__ ua ua_hash ua_spaceless hints ->
  (forall c0 : Cache,
     Parser.do_set_details cls
       (Parser.__init__ ua ua_hash ua_spaceless hints) c0
     = Some (Parser.__init__ ua ua_hash ua_spaceless hints, c0)) ->
  exists c' : Cache,
    Parser.parse cls (Parser.__init__ ua ua_hash ua_spaceless hints) c
    = Some (Parser.__init__ ua ua_hash ua_spaceless hints, c').
Proof.
  set (fresh := Parser.__init__ ua ua_hash ua_spaceless hints).
  intros Hparse Hdetails.
  assert (Hrest : forall c0 entry,
             c0 !! ua_hash = Some entry ->
             Parser.extract_details cls (Parser.do__parse cls fresh) c0
             = Some (fresh,
                     <[ua_hash := <[Parser.cache_name cls := ∅]> entry]> c0)).
  { intros c0 entry Hc0. rewrite Hparse.
    unfold Parser.extract_details, Parser.extract_version.
    cbn [Parser.ua_data fresh Parser.__init__].
    rewrite lookup_empty. cbn [mbind option_bind].
    rewrite Hdetails. cbn [mbind option_bind].
    unfold Parser.add_to_cache.
    cbn [Parser.ua_hash fresh Parser.__init__ Parser.ua_data].
    rewrite Hc0. reflexivity. }
  unfold Parser.parse, Parser.get_from_cache.
  cbn [Parser.ua_hash fresh Parser.__init__].
  destruct (c !! ua_hash) as [entry|] eqn:Hc.
  - destruct (entry !! Parser.cache_name cls) as [d|] eqn:He.
    + destruct (bool_decide (d = ∅)) eqn:Hd; cbn [negb].
      * rewrite (Hrest c entry Hc). by eexists.
      * by eexists.
    + rewrite (Hrest c entry Hc). by eexists.
  - rewrite (Hrest (<[ua_hash := ∅]> c) ∅) by apply lookup_insert_eq.
    by eexists.
Qed.

(** C9. When no rule of the list matches the user agent, [parse] on a
    new parser returns, whatever the cache holds: the parser comes back
    with [known] false, an empty record, and so [is_known()] false and
    [name()] and [version()] the empty text. *)
Theorem parse_no_match (cache_name : string) (rules : list Rule)
    (ua ua_hash ua_spaceless : string) (hints : option ClientHints)
    (c : Cache) :
  Forall (no_match ua) rules ->
  exists (self' : Parser.t) (c' : Cache),
    Parser.parse (Parser.cls cache_name rules)
      (Parser.__init__ ua ua_hash ua_spaceless hints) c = Some (self', c') /\
    Parser.known self' = false /\
    Parser.is_known self' = false /\
    Parser.name self' = VStr "" /\
    Parser.version self' = VStr "" /\
    Parser.ua_data self' = ∅ /\
    Parser.secondary_client self' = ∅.
Proof.
  intros Hrules.
  destruct (parse_nothing_found (Parser.cls cache_name rules)
              ua ua_hash ua_spaceless hints c) as [c' Hc'].
  - apply (_parse_no_match rules
             (Parser.__init__ ua ua_hash ua_spaceless hints) Hrules).
  - intros c0. cbn [Parser.cls Parser.do_set_details].
    by rewrite set_details_nothing_matched.
  - exists (Parser.__init__ ua ua_hash ua_spaceless hints), c'.
    by rewrite Hc'.
Qed.

Lemma _parse_ua_hash (rules : list Rule) (self : Parser.t) :
  Parser.ua_hash (Parser._parse rules self) = Parser.ua_hash self.
Proof.
  induction rules as [|rule rules IH]; [reflexivity|].
  cbn [Parser._parse]. by destruct (search _ _).
Qed.

Lemma extract_version_ua_hash (self self' : Parser.t) :
  Parser.extract_version self = Some self' ->
  Parser.ua_hash self' = Parser.ua_hash self.
Proof.
  unfold Parser.extract_version. intros Hs.
  repeat case_match; by simplify_eq.
Qed.

Lemma set_details_ua_hash (self : Parser.t) :
  Parser.ua_hash (Parser.set_details self) = Parser.ua_hash self.
Proof. unfold Parser.set_details. by case_match. Qed.

(** On a cache without the hash every parse of the class [Parser] that
    returns has left an entry under the hash. *)
Lemma parse_miss_leaves_entry (cache_name : string) (rules : list Rule)
    (self self' : Parser.t) (c c' : Cache) :
  c !! Parser.ua_hash self = None ->
  Parser.parse (Parser.cls cache_name rules) self c = Some (self', c') ->
  is_Some (c' !! Parser.ua_hash self) /\ c' <> c.
Proof.
  intros Hc Hparse.
  assert (Hentry : is_Some (c' !! Parser.ua_hash self)).
  { unfold Parser.parse, Parser.get_from_cache in Hparse.
    rewrite Hc in Hparse.
    rewrite bool_decide_eq_true_2 in Hparse by done. cbn [negb] in Hparse.
    unfold Parser.extract_details in Hparse.
    cbn [Parser.cls Parser.do__parse Parser.do_set_details Parser.cache_name]
      in Hparse.
    destruct (Parser.extract_version (Parser._parse rules self))
      as [self1|] eqn:Hself1; [|discriminate].
    cbn [mbind option_bind] in Hparse.
    assert (Hhash : Parser.ua_hash (Parser.set_details self1)
                    = Parser.ua_hash self).
    { rewrite set_details_ua_hash, (extract_version_ua_hash _ _ Hself1).
      by rewrite _parse_ua_hash. }
    unfold Parser.add_to_cache in Hparse. rewrite Hhash in Hparse.
    rewrite lookup_insert_eq in Hparse. cbn [mbind option_bind] in Hparse.
    injection Hparse as <- <-. rewrite lookup_insert_eq. by eexists. }
  split; [exact Hentry|].
  intros ->. rewrite Hc in Hentry. by destruct Hentry.
Qed.

(** X15. The cold and the warm parse in general, for the class [Parser]: whenever
    the parse of a new parser on a cache without its hash produces a
    non-empty record, the parse of the same new parser on the cache so
    filled returns that parser untouched, with its empty record. *)
Lemma parse_cold_then_warm (cache_name : string) (rules : list Rule)
    (ua ua_hash ua_spaceless : string) (hints : option ClientHints)
    (c c1 : Cache) (cold : Parser.t) :
  c !! ua_hash = None ->
  Parser.parse (Parser.cls cache_name rules)
    (Parser.__init__ ua ua_hash ua_spaceless hints) c = Some (cold, c1) ->
  Parser.ua_data cold <> ∅ ->
  Parser.parse (Parser.cls cache_name rules)
    (Parser.__init__ ua ua_hash ua_spaceless hints) c1
    = Some (Parser.__init__ ua ua_hash ua_spaceless hints, c1) /\
  Parser.is_known (Parser.__init__ ua ua_hash ua_spaceless hints) = false /\
  Parser.is_known cold = true.
Proof.
  intros Hc Hcold Hrecord.
  set (fresh := Parser.__init__ ua ua_hash ua_spaceless hints) in *.
  split;
    [|split; [reflexivity
             |unfold Parser.is_known; by rewrite bool_decide_eq_false_2]].
  unfold Parser.parse, Parser.get_from_cache in Hcold.
  cbn [Parser.ua_hash fresh Parser.__init__] in Hcold.
  rewrite Hc in Hcold. cbn [negb] in Hcold.
  rewrite bool_decide_eq_true_2 in Hcold by done. cbn [negb] in Hcold.
  unfold Parser.extract_details in Hcold.
  cbn [Parser.cls Parser.do__parse Parser.do_set_details Parser.cache_name]
    in Hcold.
  destruct (Parser.extract_version (Parser._parse rules fresh))
    as [self1|] eqn:Hself1; [|discriminate].
  cbn [mbind option_bind] in Hcold.
  assert (Hhash : Parser.ua_hash (Parser.set_details self1) = ua_hash).
  { rewrite set_details_ua_hash, (extract_version_ua_hash _ _ Hself1).
    by rewrite _parse_ua_hash. }
  unfold Parser.add_to_cache in Hcold. rewrite Hhash in Hcold.
  rewrite lookup_insert_eq in Hcold. cbn [mbind option_bind] in Hcold.
  injection Hcold as <- <-.
  eapply parse_hit_returns_self.
  - cbn [Parser.ua_hash fresh Parser.__init__]. apply lookup_insert_eq.
  - cbn [Parser.cls Parser.cache_name]. apply lookup_insert_eq.
  - exact Hrecord.
Qed.

End Parsing.

Lemma parse_no_match_witness :
  exists (self' : Parser.t) (c' : Cache),
    Parser.parse (Parser.cls "browser" [chrome_mobile_rule; chrome_rule])
      (Parser.__init__ "curl/8.4.0" "h4" "curl/8.4.0" None) ∅
      = Some (self', c') /\
    Parser.known self' = false /\
    Parser.is_known self' = false /\
    Parser.name self' = VStr "" /\
    Parser.version self' = VStr "" /\
    Parser.ua_data self' = ∅ /\
    Parser.secondary_client self' = ∅.
Proof.
  apply (parse_no_match "browser" [chrome_mobile_rule; chrome_rule]
           "curl/8.4.0" "h4" "curl/8.4.0" None ∅).
  constructor; [reflexivity | constructor; [reflexivity | constructor]].
Defined.

(** C1. One request parsed twice by the class with the single rule for
    "Chrome": with the cache empty, the parser gets the name "Chrome"
    and is known, and its record goes into the cache; a second parser
    built from the same arguments and run on that cache takes the hit
    branch of [parse], which returns before anything is read into the
    parser, so it has the empty name and is not known.  Only the parser
    object of the first call, parsed again, keeps its record. *)
Theorem parse_warm_cache_differs :
  exists (cold warm : Parser.t) (c1 : Cache),
    Parser.parse (Parser.cls "browser" [chrome_rule]) chrome_request ∅
      = Some (cold, c1) /\
    Parser.parse (Parser.cls "browser" [chrome_rule]) chrome_request c1
      = Some (warm, c1) /\
    Parser.name cold = VStr "Chrome" /\
    Parser.is_known cold = true /\
    Parser.known cold = true /\
    Parser.name warm = VStr "" /\
    Parser.is_known warm = false /\
    Parser.known warm = false /\
    Parser.parse (Parser.cls "browser" [chrome_rule]) cold c1
      = Some (cold, c1).
Proof.
  eexists _, _, _.
  split; [vm_compute; reflexivity|].
  split; [vm_compute; reflexivity|].
  repeat split.
Qed.

(** ** Engine resolution *)

Section EngineResolution.

Context `{Collaborators}.


(** Past that guard the record has an engine, so the branch that runs
    the [Engine] parser is never taken: [set_engine] leaves the cache,
    which that parser would write to, as it found it. *)
Lemma set_engine_keeps_cache (self self' : Parser.t) (c c' : Cache) :
  Browser.set_engine self c = Some (self', c') -> c' = c.
Proof.
  unfold Browser.set_engine.
  destruct (truthy (get_or (Parser.ua_data self) "engine" (VStr ""))) eqn:Hengine;
    cbn [negb]; [|congruence].
  destruct (get_or (Parser.ua_data self) "name" (VStr "")); try discriminate.
  rewrite !lookup_insert_ne by done.
  unfold get_or in Hengine.
  destruct (Parser.ua_data self !! "engine") as [engine|] eqn:He;
    [|discriminate].
  intros Hs. repeat case_match; by simplify_eq.
Qed.

End EngineResolution.

(** C7. A browser record without an engine, for a user agent in which
    the engine rules do find one: [set_engine] returns at its first
    line, with the record unchanged and still without an engine.  So the
    whole parse of the [Browser] class ends with a record that has a
    name and no engine, and with a cache that holds this record alone
    and nothing of an [Engine] parse, although that parse, run by hand,
    finds "WebKit". *)
Theorem set_engine_fallback_not_run :
  Parser.name webkit_browser = VStr "Chrome" /\
  Parser.ua_data webkit_browser !! "engine" = None /\
  Browser.set_engine webkit_browser ∅ = Some (webkit_browser, ∅) /\
  (exists (parsed : Parser.t) (c : Cache),
     Parser.parse Browser.cls webkit_request ∅ = Some (parsed, c) /\
     Parser.name parsed = VStr "Chrome" /\
     Parser.ua_data parsed !! "engine" = None /\
     c = {[ "77aa" := {[ "browser" := Parser.ua_data parsed ]} ]}) /\
  (exists (engine : Parser.t) (c : Cache),
     Parser.parse Engine.cls webkit_request ∅ = Some (engine, c) /\
     Parser.name engine = VStr "WebKit").
Proof.
  split; [reflexivity|].
  split; [reflexivity|].
  split; [reflexivity|].
  split.
  - eexists _, _. split; [vm_compute; reflexivity|].
    split; [reflexivity|]. split; [reflexivity|].
    vm_compute. reflexivity.
  - eexists _, _. split; [vm_compute; reflexivity | reflexivity].
Qed.

(** ** Client-hint reconciliation *)

Lemma truthy_get_or (d : UaData) (k : string) :
  truthy (get_or d k (VStr "")) = truthy (get d k).
Proof. unfold get_or, get. by destruct (d !! k). Qed.

Lemma get_lookup_Some (d : UaData) (k : string) (v : Value) :
  d !! k = Some v -> get d k = v.
Proof. intros Hk. unfold get. by rewrite Hk. Qed.

Lemma truthy_get_lookup (d : UaData) (k : string) :
  truthy (get d k) = true -> exists v, d !! k = Some v /\ truthy v = true.
Proof. unfold get. destruct (d !! k); [eauto | discriminate]. Qed.

Lemma truthy_text (s : string) : truthy (VStr s) = true <-> s <> "".
Proof.
  cbn [truthy]. destruct (String.eqb_spec s ""); cbn [negb]; split;
    congruence.
Qed.

(** On text fields the invariant is the one of the specification. *)
Lemma no_version_without_name_text (self : Parser.t) (n v : string) :
  Parser.name self = VStr n -> Parser.version self = VStr v ->
  no_version_without_name self <-> (v <> "" -> n <> "").
Proof.
  intros Hn Hv. unfold no_version_without_name. rewrite Hn, Hv.
  by rewrite !truthy_text.
Qed.

Lemma is_str_mobile_truthy (v : Value) (s : string) :
  is_str v (s ++ " Mobile") = true -> truthy v = true.
Proof.
  destruct v as [|t| |]; try discriminate. cbn [is_str].
  intros ->%String.eqb_eq. apply truthy_text. by destruct s.
Qed.

Lemma textual_or_text (v : Value) :
  textual v = true -> exists s, py_or v (VStr "") = VStr s.
Proof.
  destruct v as [|s| |]; try discriminate; intros _; unfold py_or.
  - eauto.
  - destruct (truthy (VStr s)); eauto.
Qed.

(** [DATE_VERSION] is found exactly in the texts that start with 202
    and one of the digits 0 to 5. *)
Lemma DATE_VERSION_search_spec (s : string) :
  DATE_VERSION_search s = true <->
  exists (d : ascii) (rest : string),
    s = String "2" (String "0" (String "2" (String d rest))) /\
    (48 <= nat_of_ascii d <= 53)%nat.
Proof.
  split.
  - destruct s as [|a1 [|a2 [|a3 [|d rest]]]]; try discriminate;
      cbn [DATE_VERSION_search];
      destruct a1 as [[] [] [] [] [] [] [] []]; try discriminate;
      destruct a2 as [[] [] [] [] [] [] [] []]; try discriminate;
      destruct a3 as [[] [] [] [] [] [] [] []]; try discriminate.
    intros [H1 H2]%andb_prop. exists d, rest. split; [reflexivity|].
    apply Z.leb_le in H1, H2. lia.
  - intros (d & rest & -> & Hd). cbn [DATE_VERSION_search].
    apply andb_true_intro. split; apply Z.leb_le; lia.
Qed.

Example DATE_VERSION_2024 : DATE_VERSION_search "2024.03" = true.
Proof. reflexivity. Qed.

Example DATE_VERSION_2026 : DATE_VERSION_search "2026.01" = false.
Proof. reflexivity. Qed.

Example DATE_VERSION_chromium : DATE_VERSION_search "120.0.6099.71" = false.
Proof. reflexivity. Qed.

Section Reconciliation.

Context `{Collaborators}.

Lemma set_details_no_version_without_name (self : Parser.t) :
  no_version_without_name (Parser.set_details self).
Proof.
  unfold no_version_without_name, Parser.set_details, Parser.version,
    Parser.name.
  match goal with
  | |- context [if negb (truthy (get ?d "name")) && truthy (get ?d "version")
                then _ else _] => generalize d
  end.
  intros d. rewrite !truthy_get_or.
  destruct (truthy (get d "name")) eqn:Hn; cbn [negb andb Parser.with_ua_data Parser.ua_data].
  - by rewrite Hn.
  - destruct (truthy (get d "version")) eqn:Hv;
      cbn [Parser.with_ua_data Parser.ua_data].
    + unfold get at 1. by rewrite lookup_insert_eq.
    + by rewrite Hv.
Qed.

Lemma reconcile_without_hints (self : Parser.t) :
  Parser.client_hints self = None ->
  Browser.set_data_from_client_hints self = Some self.
Proof. intros Hch. unfold Browser.set_data_from_client_hints. by rewrite Hch. Qed.

(** The record is overwritten wholesale only when it is empty and the
    hints are those of a browser. *)
Lemma wholesale_guard_false (self : Parser.t) (ch : ClientHints) :
  Parser.ua_data self <> ∅ \/ client_is_browser ch = false ->
  bool_decide (Parser.ua_data self = ∅) && client_is_browser ch = false.
Proof.
  intros [Hd | Hb].
  - by rewrite bool_decide_eq_false_2.
  - rewrite Hb. apply andb_false_r.
Qed.

Lemma named_record_not_empty (self : Parser.t) :
  truthy (Parser.name self) = true -> Parser.ua_data self <> ∅.
Proof.
  unfold Parser.name, get_or. intros Hn Hd. rewrite Hd, lookup_empty in Hn.
  discriminate.
Qed.

(** C4, as the code has it.  When the hints name "DuckDuckGo Privacy
    Browser", carry no application identifier, and the record is not an
    empty one about to be replaced by the hints of a browser, then
    reconciliation gives the record that name, the empty version, and
    the version of the hints (the empty text if they have none) as
    engine version. *)
Theorem duckduckgo_hints_reconciled (self : Parser.t) (ch : ClientHints) :
  Parser.client_hints self = Some ch ->
  client_data ch !! "name" = Some (VStr "DuckDuckGo Privacy Browser") ->
  truthy (get (client_data ch) "app_id") = false ->
  Parser.ua_data self <> ∅ \/ client_is_browser ch = false ->
  exists self',
    Browser.set_data_from_client_hints self = Some self' /\
    Parser.name self' = VStr "DuckDuckGo Privacy Browser" /\
    Parser.version self' = VStr "" /\
    Parser.ua_data self' !! "engine_version"
      = Some (py_or (get (client_data ch) "version") (VStr "")).
Proof.
  intros Hch Hname Happ Hguard.
  unfold Browser.set_data_from_client_hints. rewrite Hch.
  rewrite (wholesale_guard_false _ _ Hguard), Happ.
  unfold get at 1. rewrite Hname. cbn [default py_or truthy String.eqb
    Ascii.eqb Bool.eqb negb is_str].
  eexists. split; [reflexivity|].
  unfold BaseClientParser.set_data_from_client_hints. rewrite Hch.
  unfold Parser.name, Parser.version, get_or.
  cbn [Parser.ua_data Parser.with_ua_data].
  rewrite lookup_insert_ne, lookup_insert_ne by done.
  rewrite (lookup_union_Some_l _ _ _ _ Hname).
  rewrite lookup_insert_ne, lookup_insert_eq by done.
  by rewrite lookup_insert_eq.
Qed.

(** C5, as the code has it.  The hints carry no application
    identifier and name "Chromium" or "Chrome Webview"; the record has a
    name and a short name other than CR, CV and AN.  When the version of
    the hints starts with a year from 2020 to 2025 ([DATE_VERSION]), the
    record is named "Iridium", short name "I1"; otherwise name, short
    name and version of the record stay those from the user agent. *)
Theorem chromium_hints_reconciled (self : Parser.t) (ch : ClientHints)
    (brand v : string) :
  Parser.client_hints self = Some ch ->
  truthy (get (client_data ch) "app_id") = false ->
  truthy (Parser.name self) = true ->
  client_data ch !! "name" = Some (VStr brand) ->
  brand = "Chromium" \/ brand = "Chrome Webview" ->
  in_strs (get_or (Parser.ua_data self) "short_name" (VStr ""))
    ["CR"; "CV"; "AN"] = false ->
  py_or (get (client_data ch) "version") (VStr "") = VStr v ->
  exists self',
    Browser.set_data_from_client_hints self = Some self' /\
    if DATE_VERSION_search v
    then Parser.name self' = VStr "Iridium" /\
         Browser.short_name self' = VStr "I1"
    else Parser.name self' = Parser.name self /\
         Browser.short_name self'
           = get_or (Parser.ua_data self) "short_name" (VStr "") /\
         Parser.version self' = Parser.version self.
Proof.
  intros Hch Happ Hua Hname Hbrand Hshort Hversion.
  unfold Browser.set_data_from_client_hints. rewrite Hch.
  rewrite (wholesale_guard_false self ch)
    by (left; by apply named_record_not_empty).
  rewrite Happ, Hversion. fold (Parser.name self). rewrite Hua, Hshort.
  rewrite !(get_lookup_Some _ _ _ Hname).
  assert (Hbr : py_or (VStr brand) (VStr "") = VStr brand)
    by (by destruct Hbrand as [-> | ->]).
  rewrite Hbr.
  assert (Hddg : is_str (VStr brand) "DuckDuckGo Privacy Browser" = false)
    by (by destruct Hbrand as [-> | ->]).
  assert (Hin : in_strs (VStr brand) ["Chromium"; "Chrome Webview"] = true)
    by (by destruct Hbrand as [-> | ->]).
  rewrite Hddg, Hin. cbn [andb negb].
  destruct (DATE_VERSION_search v); eexists; (split; [reflexivity|]).
  - unfold Parser.name, Browser.short_name, get_or.
    cbn [Parser.ua_data Parser.with_ua_data].
    rewrite lookup_insert_ne, !lookup_insert_eq by done. done.
  - unfold Parser.name, Parser.version, Browser.short_name, get_or.
    cbn [Parser.ua_data Parser.with_ua_data].
    rewrite lookup_insert_eq.
    rewrite !(lookup_insert_ne _ "short_name") by done.
    rewrite lookup_insert_eq, lookup_insert_ne, lookup_insert_eq by done.
    done.
Qed.

Lemma overlay_name_truthy (hints d : UaData) :
  truthy (get hints "name") = true ->
  truthy (get_or (hints ∪ d) "name" (VStr "")) = true.
Proof.
  intros (v & Hv & Ht)%truthy_get_lookup.
  unfold get_or. by rewrite (lookup_union_Some_l _ _ _ _ Hv).
Qed.

(** Hints that name a brand always leave a named record, or, for
    DuckDuckGo, one without a version. *)
Lemma reconcile_named_hints (self : Parser.t) (ch : ClientHints) :
  Parser.client_hints self = Some ch ->
  truthy (get (client_data ch) "name") = true ->
  textual (get (client_data ch) "version") = true ->
  exists self',
    Browser.set_data_from_client_hints self = Some self' /\
    no_version_without_name self'.
Proof.
  intros Hch Hname Htext.
  destruct (textual_or_text _ Htext) as [v Hv].
  unfold Browser.set_data_from_client_hints. rewrite Hch, Hv.
  unfold BaseClientParser.set_data_from_client_hints. rewrite Hch.
  unfold no_version_without_name, Parser.name, Parser.version.
  repeat match goal with
         | |- context [if ?b then _ else _] =>
             let Hb := fresh "Hb" in destruct b eqn:Hb
         end;
    eexists; (split; [reflexivity|]);
    cbn [Parser.ua_data Parser.with_ua_data]; intros Hver.
  - by rewrite truthy_get_or.
  - by apply overlay_name_truthy.
  - unfold get_or in Hver.
    rewrite lookup_insert_ne, lookup_insert_eq in Hver by done. discriminate.
  - unfold get_or. by rewrite lookup_insert_ne, lookup_insert_eq by done.
  - apply andb_prop in Hb2 as [[Hua _]%andb_prop _].
    unfold get_or at 1.
    by rewrite !(lookup_insert_ne _ _ "name"), lookup_insert_eq by done.
  - unfold get_or at 1.
    rewrite lookup_insert_ne, lookup_insert_eq by done.
    by eapply is_str_mobile_truthy.
  - by apply overlay_name_truthy.
Qed.

(** C2, as the code has it.  [set_details] leaves no record with a
    version and no name: it clears such a version.  Reconciliation
    clears nothing of its own: without hints it returns the record as it
    is, and with hints that name a brand its result again has no version
    without a name. *)
Theorem no_version_without_name_kept :
  (forall self : Parser.t,
     no_version_without_name (Parser.set_details self)) /\
  (forall self : Parser.t,
     Parser.client_hints self = None ->
     Browser.set_data_from_client_hints self = Some self) /\
  (forall (self : Parser.t) (ch : ClientHints),
     Parser.client_hints self = Some ch ->
     truthy (get (client_data ch) "name") = true ->
     textual (get (client_data ch) "version") = true ->
     exists self',
       Browser.set_data_from_client_hints self = Some self' /\
       no_version_without_name self').
Proof.
  split; [exact set_details_no_version_without_name|].
  split; [exact reconcile_without_hints | exact reconcile_named_hints].
Qed.

End Reconciliation.

(** C2, as stated, fails on reconciliation.  A record with name and
    version meets hints with an application identifier, a version and
    an empty name: the hints are merged over the record, which ends with
    the version "5.0" and the empty name. *)
Lemma reconciliation_version_without_name :
  no_version_without_name
    (reconciled_input chrome_mobile_record unnamed_app_hints) /\
  exists self',
    Browser.set_data_from_client_hints
      (reconciled_input chrome_mobile_record unnamed_app_hints) = Some self' /\
    Parser.name self' = VStr "" /\
    Parser.version self' = VStr "5.0" /\
    ~ no_version_without_name self'.
Proof.
  split; [intros _; reflexivity|].
  eexists. split; [vm_compute; reflexivity|].
  split; [reflexivity|]. split; [reflexivity|].
  intros Hinv. specialize (Hinv eq_refl). discriminate.
Qed.

Lemma no_version_without_name_kept_witness :
  no_version_without_name (Parser.set_details windows_parser) /\
  Browser.set_data_from_client_hints windows_parser = Some windows_parser /\
  exists self',
    Browser.set_data_from_client_hints
      (reconciled_input chrome_mobile_record chrome_hints) = Some self' /\
    no_version_without_name self'.
Proof.
  split; [apply (proj1 no_version_without_name_kept windows_parser)|].
  split.
  - apply (proj1 (proj2 no_version_without_name_kept) windows_parser).
    reflexivity.
  - apply (proj2 (proj2 no_version_without_name_kept)
             (reconciled_input chrome_mobile_record chrome_hints)
             {| client_data := chrome_hints; client_is_browser := true |});
      reflexivity.
Defined.

(** C4, as stated, fails when the hints carry an application
    identifier: they are merged over the record, whose version becomes
    the "7.1" of the hints, and no engine version is set. *)
Lemma duckduckgo_with_app_id :
  exists self',
    Browser.set_data_from_client_hints
      (reconciled_input chrome_mobile_record duckduckgo_app_hints)
      = Some self' /\
    Parser.name self' = VStr "DuckDuckGo Privacy Browser" /\
    Parser.version self' = VStr "7.1" /\
    Parser.version self' <> VStr "" /\
    Parser.ua_data self' !! "engine_version" = None.
Proof.
  eexists. split; [vm_compute; reflexivity|].
  repeat split. discriminate.
Qed.

Lemma duckduckgo_hints_reconciled_witness :
  exists self',
    Browser.set_data_from_client_hints
      (reconciled_input chrome_mobile_record duckduckgo_hints) = Some self' /\
    Parser.name self' = VStr "DuckDuckGo Privacy Browser" /\
    Parser.version self' = VStr "" /\
    Parser.ua_data self' !! "engine_version" = Some (VStr "7.1").
Proof.
  apply (duckduckgo_hints_reconciled
           (reconciled_input chrome_mobile_record duckduckgo_hints)
           {| client_data := duckduckgo_hints; client_is_browser := true |}).
  - reflexivity.
  - reflexivity.
  - reflexivity.
  - left. discriminate.
Defined.

(** C5, as stated, fails in two ways.  Hints that carry an application
    identifier are merged over the record, so that "Chromium" is adopted
    as its name, year version or not; and a version of four digits that
    start with 202 but name a year after 2025 is not taken for a year:
    the record keeps the name from the user agent. *)
Lemma chromium_hints_not_as_stated :
  (exists self',
     Browser.set_data_from_client_hints
       (reconciled_input brave_record chromium_app_hints) = Some self' /\
     Parser.name self' = VStr "Chromium") /\
  (spec_year_pattern "2026.01" = true /\
   exists self',
     Browser.set_data_from_client_hints
       (reconciled_input brave_record (chromium_hints "2026.01"))
       = Some self' /\
     Parser.name self' = VStr "Brave" /\
     Browser.short_name self' = VStr "BR").
Proof.
  split.
  - eexists. split; [vm_compute; reflexivity | reflexivity].
  - split; [reflexivity|].
    eexists. split; [vm_compute; reflexivity|]. split; reflexivity.
Qed.

Lemma chromium_hints_reconciled_witness :
  exists self',
    Browser.set_data_from_client_hints
      (reconciled_input brave_record (chromium_hints "2024.03")) = Some self' /\
    Parser.name self' = VStr "Iridium" /\
    Browser.short_name self' = VStr "I1".
Proof.
  apply (chromium_hints_reconciled
           (reconciled_input brave_record (chromium_hints "2024.03"))
           {| client_data := chromium_hints "2024.03";
              client_is_browser := true |}
           "Chromium" "2024.03").
  - reflexivity.
  - reflexivity.
  - reflexivity.
  - reflexivity.
  - left. reflexivity.
  - reflexivity.
  - reflexivity.
Defined.

(** ** The [Browser] class as a whole *)

Section BrowserClass.

Context `{Collaborators} `{ClientCollaborators}.

Lemma engine_from_versions_lookup (client_version : Value)
    (versions : list (string * Value)) (d : UaData) (k : string) :
  k <> "engine" -> k <> "engine_version" ->
  Browser.engine_from_versions client_version versions d !! k = d !! k.
Proof.
  intros Hk1 Hk2. unfold Browser.engine_from_versions.
  revert d. induction versions as [|kv versions IH]; intros d;
    [reflexivity|].
  cbn [fold_left]. rewrite IH. by rewrite !lookup_insert_ne.
Qed.

(** [set_engine] writes the short name, the family and the engine
    fields only. *)
Lemma set_engine_keeps_field (self self' : Parser.t) (c c' : Cache)
    (k : string) :
  k <> "engine" -> k <> "engine_version" ->
  k <> "short_name" -> k <> "family" ->
  Browser.set_engine self c = Some (self', c') ->
  Parser.ua_data self' !! k = Parser.ua_data self !! k.
Proof.
  intros Hk1 Hk2 Hk3 Hk4. unfold Browser.set_engine. intros Hs.
  repeat case_match; simplify_option_eq;
    repeat match goal with
           | pair : (Parser.t * Cache)%type |- _ => destruct pair
           end;
    simplify_eq; try done;
    cbn [Parser.ua_data Parser.with_ua_data];
    rewrite ?engine_from_versions_lookup by done;
    rewrite ?lookup_insert_ne by done; done.
Qed.




End BrowserClass.

(** * Further properties of the code *)

(** ** Splitting and joining *)

Lemma split_not_nil (sep : ascii) (s : string) : PyStr.split sep s <> [].
Proof.
  induction s as [|a s IH]; [discriminate|].
  cbn [PyStr.split]. destruct (Ascii.eqb a sep); [discriminate|].
  by destruct (PyStr.split sep s).
Qed.

Lemma split_pieces_keep_out (c sep : ascii) (s : string) :
  has_char c s = false ->
  Forall (fun w => has_char c w = false) (PyStr.split sep s).
Proof.
  induction s as [|a s IH]; intros Hs.
  - by constructor.
  - cbn [has_char] in Hs. apply orb_false_elim in Hs as [Ha Hs].
    specialize (IH Hs). cbn [PyStr.split].
    destruct (Ascii.eqb a sep).
    + by constructor.
    + destruct (PyStr.split sep s) as [|w ws].
      * constructor; [|constructor]. cbn [has_char]. by rewrite Ha.
      * inversion IH; subst. constructor; [|done].
        cbn [has_char]. by rewrite Ha.
Qed.

Lemma split_pieces_without_sep (sep : ascii) (s : string) :
  Forall (fun w => has_char sep w = false) (PyStr.split sep s).
Proof.
  induction s as [|a s IH]; [by constructor|].
  cbn [PyStr.split]. destruct (Ascii.eqb a sep) eqn:Ha.
  - by constructor.
  - destruct (PyStr.split sep s) as [|w ws].
    + constructor; [|constructor]. cbn [has_char]. by rewrite Ha.
    + inversion IH; subst. constructor; [|done].
      cbn [has_char]. by rewrite Ha.
Qed.

Lemma replace_takes_out (old new : ascii) (s : string) :
  old <> new -> has_char old (PyStr.replace old new s) = false.
Proof.
  intros Hne. induction s as [|a s IH]; [reflexivity|].
  cbn [PyStr.replace has_char]. rewrite IH, orb_false_r.
  destruct (Ascii.eqb a old) eqn:Ha; [|done].
  apply Ascii.eqb_neq. congruence.
Qed.

Lemma replace_absent (old new : ascii) (s : string) :
  has_char old s = false -> PyStr.replace old new s = s.
Proof.
  induction s as [|a s IH]; [reflexivity|].
  cbn [has_char PyStr.replace]. intros [Ha Hs]%orb_false_elim.
  by rewrite Ha, IH.
Qed.

Lemma split_single (sep : ascii) (w : string) :
  has_char sep w = false -> PyStr.split sep w = [w].
Proof.
  induction w as [|a w IH]; [reflexivity|].
  cbn [has_char PyStr.split]. intros [Ha Hw]%orb_false_elim.
  by rewrite Ha, IH.
Qed.

Lemma split_app_sep (sep : ascii) (w rest : string) :
  has_char sep w = false ->
  PyStr.split sep (w ++ String sep rest) = w :: PyStr.split sep rest.
Proof.
  induction w as [|a w IH].
  - intros _. simpl. by rewrite Ascii.eqb_refl.
  - cbn [has_char]. intros [Ha Hw]%orb_false_elim.
    simpl. by rewrite Ha, IH.
Qed.

Lemma split_join (sep : ascii) (l : list string) :
  l <> [] ->
  Forall (fun w => has_char sep w = false) l ->
  PyStr.split sep (PyStr.join (String sep EmptyString) l) = l.
Proof.
  intros Hl Hall. induction Hall as [|w l Hw Hall IH]; [done|].
  destruct l as [|w' l].
  - cbn [PyStr.join]. by apply split_single.
  - change (PyStr.join (String sep EmptyString) (w :: w' :: l))
      with (w ++ String sep (PyStr.join (String sep EmptyString) (w' :: l))).
    rewrite split_app_sep by done. by rewrite IH.
Qed.

Lemma has_char_app (c : ascii) (s t : string) :
  has_char c (s ++ t) = has_char c s || has_char c t.
Proof.
  induction s as [|a s IH]; [reflexivity|].
  simpl. by rewrite IH, orb_assoc.
Qed.

Lemma join_keeps_out (c sep : ascii) (l : list string) :
  Ascii.eqb sep c = false ->
  Forall (fun w => has_char c w = false) l ->
  has_char c (PyStr.join (String sep EmptyString) l) = false.
Proof.
  intros Hsep Hall. induction Hall as [|w l Hw Hall IH]; [reflexivity|].
  destruct l as [|w' l]; [done|].
  change (PyStr.join (String sep EmptyString) (w :: w' :: l))
    with (w ++ String sep (PyStr.join (String sep EmptyString) (w' :: l))).
  rewrite has_char_app, Hw. cbn [has_char orb]. by rewrite Hsep, IH.
Qed.

(** ** [build_version], further *)

Lemma version_segments_clean (v : string) :
  Forall (fun w => has_char "." w = false) (version_segments v) /\
  Forall (fun w => has_char "_" w = false) (version_segments v).
Proof.
  split.
  - apply split_pieces_without_sep.
  - apply split_pieces_keep_out. by apply replace_takes_out.
Qed.

Lemma version_segments_join (l : list string) :
  l <> [] ->
  Forall (fun w => has_char "." w = false) l ->
  Forall (fun w => has_char "_" w = false) l ->
  version_segments (PyStr.join "." l) = l.
Proof.
  intros Hl Hdot Hund. unfold version_segments.
  rewrite replace_absent by (by apply join_keeps_out).
  by apply split_join.
Qed.

Lemma build_version_cut (v : string) (k : Z) :
  0 <= k ->
  Z.of_nat (length (version_segments v)) <> k + 1 ->
  build_version v k
  = PyStr.join "." (firstn (Z.to_nat (k + 1)) (version_segments v)).
Proof.
  intros Hk Hlen. unfold build_version. fold (version_segments v).
  destruct (k =? -1) eqn:Hm; [apply Z.eqb_eq in Hm; lia|].
  destruct (_ =? k + 1) eqn:He; [apply Z.eqb_eq in He; done|].
  unfold PyStr.slice_to.
  destruct (0 <=? k + 1) eqn:H0; [done|]. apply Z.leb_gt in H0. lia.
Qed.

Lemma build_version_whole (v : string) (k : Z) :
  Z.of_nat (length (version_segments v)) = k + 1 -> build_version v k = v.
Proof.
  intros Hlen. unfold build_version. fold (version_segments v).
  destruct (k =? -1); [done|]. by rewrite Hlen, Z.eqb_refl.
Qed.

Lemma firstn_segments_clean (n : nat) (v : string) :
  Forall (fun w => has_char "." w = false) (firstn n (version_segments v)) /\
  Forall (fun w => has_char "_" w = false) (firstn n (version_segments v)).
Proof.
  destruct (version_segments_clean v) as [Hdot Hund].
  split; by apply Forall_take.
Qed.

Lemma cut_segments (v : string) (k : Z) :
  0 <= k ->
  version_segments
    (PyStr.join "." (firstn (Z.to_nat (k + 1)) (version_segments v)))
  = firstn (Z.to_nat (k + 1)) (version_segments v).
Proof.
  intros Hk. destruct (firstn_segments_clean (Z.to_nat (k + 1)) v).
  apply version_segments_join; [|done..].
  pose proof (split_not_nil "." (PyStr.replace "_" "." v)) as Hne.
  fold (version_segments v) in Hne.
  destruct (version_segments v); [done|].
  replace (Z.to_nat (k + 1)) with (S (Z.to_nat k)) by lia. done.
Qed.

(** X1. Truncating twice is truncating once, for every truncation from
    [-1] upwards. *)
Theorem build_version_idempotent (v : string) (k : Z) :
  -1 <= k -> build_version (build_version v k) k = build_version v k.
Proof.
  intros Hk. destruct (decide (k = -1)) as [-> | Hne]; [reflexivity|].
  assert (H0 : 0 <= k) by lia.
  destruct (decide (Z.of_nat (length (version_segments v)) = k + 1))
    as [Hlen | Hlen].
  - by rewrite !(build_version_whole v k Hlen).
  - rewrite (build_version_cut v k H0 Hlen).
    set (l := firstn (Z.to_nat (k + 1)) (version_segments v)).
    pose proof (cut_segments v k H0) as Hsegs. fold l in Hsegs.
    destruct (decide (Z.of_nat (length l) = k + 1)) as [Hl | Hl].
    + apply build_version_whole. by rewrite Hsegs.
    + rewrite build_version_cut by (by rewrite ?Hsegs).
      rewrite Hsegs. unfold l. by rewrite firstn_firstn, Nat.min_id.
Qed.

Lemma build_version_idempotent_witness :
  build_version (build_version "10_0.16299.371" 1) 1
  = build_version "10_0.16299.371" 1.
Proof. apply (build_version_idempotent "10_0.16299.371" 1). lia. Defined.

(** X2. With a truncation of zero or more, the result never has more
    than [truncation + 1] segments. *)
Theorem build_version_segment_bound (v : string) (k : Z) :
  0 <= k ->
  Z.of_nat (length (version_segments (build_version v k))) <= k + 1.
Proof.
  intros Hk.
  destruct (decide (Z.of_nat (length (version_segments v)) = k + 1))
    as [Hlen | Hlen].
  - rewrite (build_version_whole v k Hlen). lia.
  - rewrite (build_version_cut v k Hk Hlen), (cut_segments v k Hk).
    rewrite length_firstn. lia.
Qed.

Lemma build_version_segment_bound_witness :
  Z.of_nat (length (version_segments (build_version "10.0.16299.371" 2)))
  <= 2 + 1.
Proof. apply (build_version_segment_bound "10.0.16299.371" 2). lia. Defined.

(** X3. Underscores are normalised to dots only when something is cut
    or joined: unless the truncation is [-1] or the input has exactly
    [truncation + 1] segments (it is then returned as it is, underscores
    included), the result holds no underscore. *)
Theorem build_version_no_underscore (v : string) (k : Z) :
  k <> -1 ->
  Z.of_nat (length (version_segments v)) <> k + 1 ->
  has_char "_" (build_version v k) = false.
Proof.
  intros Hk Hlen. unfold build_version. fold (version_segments v).
  destruct (k =? -1) eqn:Hm; [apply Z.eqb_eq in Hm; done|].
  destruct (_ =? k + 1) eqn:He; [apply Z.eqb_eq in He; done|].
  apply join_keeps_out; [reflexivity|].
  unfold PyStr.slice_to. destruct (0 <=? k + 1); apply firstn_segments_clean.
Qed.

Lemma build_version_no_underscore_witness :
  has_char "_" (build_version "10_0_16299" 1) = false.
Proof.
  apply (build_version_no_underscore "10_0_16299" 1); [lia|].
  vm_compute. discriminate.
Defined.

(** ** The shared cache, further *)

(** X4. What [add_to_cache] stores, [get_from_cache] gives back: after a
    store that did not raise, the lookup by the same parser and cache
    name answers the parser's record and leaves the cache alone. *)
Theorem add_to_cache_then_get (cache_name : string) (self : Parser.t)
    (c c' : Cache) :
  Parser.add_to_cache cache_name self c = Some c' ->
  Parser.get_from_cache cache_name self c' = (Some (Parser.ua_data self), c').
Proof.
  unfold Parser.add_to_cache. intros Hadd.
  destruct (c !! Parser.ua_hash self) as [entry|] eqn:Hc; [|discriminate].
  injection Hadd as <-.
  erewrite get_from_cache_known_hash by apply lookup_insert_eq.
  by rewrite lookup_insert_eq.
Qed.

Lemma add_to_cache_then_get_witness :
  Parser.get_from_cache "browser" windows_parser
    (<["h3" := <["browser" := Parser.ua_data windows_parser]> ∅]>
       (<["h3" := ∅]> ∅))
  = (Some (Parser.ua_data windows_parser),
     <["h3" := <["browser" := Parser.ua_data windows_parser]> ∅]>
       (<["h3" := ∅]> ∅)).
Proof.
  apply (add_to_cache_then_get "browser" windows_parser (<["h3" := ∅]> ∅)).
  reflexivity.
Defined.

(** X5. [add_to_cache] raises [KeyError] exactly when the cache has no
    entry for the hash, and never right after [get_from_cache], whatever
    the cache was and whatever the two cache names are. *)
Theorem add_to_cache_after_get (name1 name2 : string) (self : Parser.t)
    (c : Cache) :
  (Parser.add_to_cache name2 self c = None <-> c !! Parser.ua_hash self = None)
  /\ is_Some
       (Parser.add_to_cache name2 self
          (snd (Parser.get_from_cache name1 self c))).
Proof.
  split.
  - unfold Parser.add_to_cache. by destruct (c !! Parser.ua_hash self).
  - unfold Parser.get_from_cache, Parser.add_to_cache.
    destruct (c !! Parser.ua_hash self) as [entry|] eqn:Hc; cbn [snd].
    + by rewrite Hc.
    + by rewrite lookup_insert_eq.
Qed.

(** X6. [add_to_cache] writes one slot: the entries of other hashes, and
    under the parser's hash the records of other cache names, are what
    they were. *)
Theorem add_to_cache_frame (cache_name : string) (self : Parser.t)
    (c c' : Cache) :
  Parser.add_to_cache cache_name self c = Some c' ->
  (forall h : string, h <> Parser.ua_hash self -> c' !! h = c !! h) /\
  (forall (other : string) (entry entry' : gmap string UaData),
     other <> cache_name ->
     c !! Parser.ua_hash self = Some entry ->
     c' !! Parser.ua_hash self = Some entry' ->
     entry' !! other = entry !! other).
Proof.
  unfold Parser.add_to_cache. intros Hadd.
  destruct (c !! Parser.ua_hash self) as [entry0|] eqn:Hc; [|discriminate].
  injection Hadd as <-. split.
  - intros h Hh. by rewrite lookup_insert_ne.
  - intros other entry entry' Hother [= <-].
    rewrite lookup_insert_eq. intros [= <-]. by rewrite lookup_insert_ne.
Qed.

Lemma add_to_cache_frame_witness :
  (forall h : string,
     h <> Parser.ua_hash windows_parser ->
     (<["h3" := <["browser" := Parser.ua_data windows_parser]>
                  {[ "engine" := ∅ ]}]>
        (<["h3" := {[ "engine" := ∅ ]}]> ∅) : Cache) !! h
     = (<["h3" := {[ "engine" := ∅ ]}]> ∅ : Cache) !! h) /\
  (forall (other : string) (entry entry' : gmap string UaData),
     other <> "browser" ->
     (<["h3" := {[ "engine" := ∅ ]}]> ∅ : Cache)
       !! Parser.ua_hash windows_parser = Some entry ->
     (<["h3" := <["browser" := Parser.ua_data windows_parser]>
                  {[ "engine" := ∅ ]}]>
        (<["h3" := {[ "engine" := ∅ ]}]> ∅) : Cache)
       !! Parser.ua_hash windows_parser = Some entry' ->
     entry' !! other = entry !! other).
Proof.
  apply (add_to_cache_frame "browser" windows_parser
           (<["h3" := {[ "engine" := ∅ ]}]> ∅)).
  reflexivity.
Defined.

(** ** The matcher, further *)

Lemma union_twice (fields d : UaData) : fields ∪ (fields ∪ d) = fields ∪ d.
Proof. by rewrite (assoc_L (∪)), (idemp_L (∪)). Qed.

(** X7. Running the matcher again on its own result changes nothing:
    the same rule matches, and merging its fields a second time is
    merging them once. *)
Theorem matcher_twice (rules : list Rule) (self : Parser.t) :
  Parser._parse rules (Parser._parse rules self) = Parser._parse rules self.
Proof.
  induction rules as [|rule rules IH]; [reflexivity|].
  cbn [Parser._parse].
  destruct (search (regex rule) (Parser.user_agent self)) as [m|] eqn:Hm.
  - cbn [Parser._parse Parser.user_agent Parser.with_match]. rewrite Hm.
    unfold Parser.with_match. cbn [Parser.ua_data Parser.user_agent
      Parser.ua_hash Parser.ua_spaceless Parser.secondary_client
      Parser.client_hints Parser.ch_client_data].
    by rewrite union_twice.
  - assert (Hua : Parser.user_agent (Parser._parse rules self)
                  = Parser.user_agent self).
    { clear. induction rules as [|r rules IH]; [done|].
      cbn [Parser._parse]. by destruct (search _ _). }
    cbn [Parser._parse]. rewrite Hua, Hm. exact IH.
Qed.

(** X8. On a parser that is not yet known and holds no match, the
    matcher sets [known], and keeps a match object, exactly when some
    rule of the list matches the user agent; the texts of the request,
    the hints and the secondary client are never touched. *)
Theorem matcher_known_iff_match (rules : list Rule) (self : Parser.t) :
  Parser.known self = false ->
  Parser.matched_regex self = None ->
  (Parser.known (Parser._parse rules self) = true <->
   Exists (fun rule => is_Some (search (regex rule) (Parser.user_agent self)))
     rules) /\
  (is_Some (Parser.matched_regex (Parser._parse rules self)) <->
   Parser.known (Parser._parse rules self) = true) /\
  Parser.user_agent (Parser._parse rules self) = Parser.user_agent self /\
  Parser.ua_spaceless (Parser._parse rules self) = Parser.ua_spaceless self /\
  Parser.client_hints (Parser._parse rules self) = Parser.client_hints self /\
  Parser.secondary_client (Parser._parse rules self)
  = Parser.secondary_client self.
Proof.
  intros Hknown Hmatched.
  induction rules as [|rule rules IH].
  - cbn [Parser._parse]. rewrite Hknown, Hmatched.
    repeat split; try done.
    all: try (by intros ?%Exists_nil).
    all: by intros []%is_Some_None.
  - cbn [Parser._parse].
    destruct (search (regex rule) (Parser.user_agent self)) as [m|] eqn:Hm.
    + cbn [Parser.known Parser.matched_regex Parser.with_match
        Parser.user_agent Parser.ua_spaceless Parser.client_hints
        Parser.secondary_client].
      repeat split; try done.
      intros _. apply Exists_cons_hd. by rewrite Hm.
    + destruct IH as (IH1 & IH2 & IH3). split; [|done].
      rewrite IH1. split.
      * by apply Exists_cons_tl.
      * intros [Hhd | Htl]%Exists_cons; [|done].
        rewrite Hm in Hhd. by destruct Hhd.
Qed.

Lemma matcher_known_iff_match_witness :
  (Parser.known (Parser._parse [chrome_mobile_rule; chrome_rule] chrome_request)
   = true <->
   Exists (fun rule =>
             is_Some (search (regex rule) (Parser.user_agent chrome_request)))
     [chrome_mobile_rule; chrome_rule]) /\
  (is_Some (Parser.matched_regex
              (Parser._parse [chrome_mobile_rule; chrome_rule] chrome_request))
   <-> Parser.known
         (Parser._parse [chrome_mobile_rule; chrome_rule] chrome_request)
       = true) /\
  Parser.user_agent (Parser._parse [chrome_mobile_rule; chrome_rule] chrome_request)
  = Parser.user_agent chrome_request /\
  Parser.ua_spaceless
    (Parser._parse [chrome_mobile_rule; chrome_rule] chrome_request)
  = Parser.ua_spaceless chrome_request /\
  Parser.client_hints
    (Parser._parse [chrome_mobile_rule; chrome_rule] chrome_request)
  = Parser.client_hints chrome_request /\
  Parser.secondary_client
    (Parser._parse [chrome_mobile_rule; chrome_rule] chrome_request)
  = Parser.secondary_client chrome_request.
Proof.
  apply (matcher_known_iff_match [chrome_mobile_rule; chrome_rule]
           chrome_request); reflexivity.
Defined.

(** ** [extract_version], further *)

Lemma extract_version_drops_list (self self' : Parser.t) :
  Parser.extract_version self = Some self' ->
  Parser.ua_data self' !! "versions" = None.
Proof.
  unfold Parser.extract_version. intros Hs.
  repeat case_match; simplify_eq; cbn [Parser.ua_data Parser.with_ua_data];
    rewrite ?lookup_insert_ne by done; by rewrite ?lookup_delete_eq.
Qed.

(** X9. When [extract_version] returns, the record no longer has the key
    ['versions'], every key other than ['version'] and ['versions']
    holds what it held, and nothing else of the parser has changed. *)
Theorem extract_version_frame (self self' : Parser.t) :
  Parser.extract_version self = Some self' ->
  Parser.ua_data self' !! "versions" = None /\
  (forall k : string,
     k <> "version" -> k <> "versions" ->
     Parser.ua_data self' !! k = Parser.ua_data self !! k) /\
  Parser.matched_regex self' = Parser.matched_regex self /\
  Parser.known self' = Parser.known self /\
  Parser.user_agent self' = Parser.user_agent self /\
  Parser.secondary_client self' = Parser.secondary_client self.
Proof.
  unfold Parser.extract_version. intros Hs.
  repeat case_match; simplify_eq;
    cbn [Parser.ua_data Parser.with_ua_data Parser.matched_regex Parser.known
           Parser.user_agent Parser.secondary_client];
    repeat split; try done;
    try (intros k Hk1 Hk2);
    rewrite ?lookup_insert_ne by done; by rewrite ?lookup_delete_eq,
      ?lookup_delete_ne by done.
Qed.

Lemma extract_version_frame_witness :
  exists self',
    Parser.extract_version windows_parser = Some self' /\
    Parser.ua_data self' !! "versions" = None /\
    (forall k : string,
       k <> "version" -> k <> "versions" ->
       Parser.ua_data self' !! k = Parser.ua_data windows_parser !! k) /\
    Parser.matched_regex self' = Parser.matched_regex windows_parser /\
    Parser.known self' = Parser.known windows_parser /\
    Parser.user_agent self' = Parser.user_agent windows_parser /\
    Parser.secondary_client self' = Parser.secondary_client windows_parser.
Proof.
  eexists. split; [reflexivity|].
  apply (extract_version_frame windows_parser). reflexivity.
Defined.

(** X10. [extract_version] consumes its list: run on its own result it
    returns that result unchanged. *)
Theorem extract_version_twice (self self' : Parser.t) :
  Parser.extract_version self = Some self' ->
  Parser.extract_version self' = Some self'.
Proof.
  intros Hs. unfold Parser.extract_version.
  by rewrite (extract_version_drops_list _ _ Hs).
Qed.

Lemma extract_version_twice_witness :
  Parser.extract_version
    (Parser.with_ua_data windows_parser
       (<["version" := VStr "10"]>
          (delete "versions" (Parser.ua_data windows_parser))))
  = Some (Parser.with_ua_data windows_parser
            (<["version" := VStr "10"]>
               (delete "versions" (Parser.ua_data windows_parser)))).
Proof.
  apply (extract_version_twice windows_parser). reflexivity.
Defined.

(** ** [set_details], further *)

Section SetDetails.

Context `{Collaborators}.

(** X11. [set_details] writes the name and the version only, and the
    name only where there is one: every other key keeps its value, the
    key ['name'] is neither created nor removed, and nothing else of the
    parser changes. *)
Theorem set_details_frame (self : Parser.t) :
  (forall k : string,
     k <> "name" -> k <> "version" ->
     Parser.ua_data (Parser.set_details self) !! k
     = Parser.ua_data self !! k) /\
  (is_Some (Parser.ua_data (Parser.set_details self) !! "name") <->
   is_Some (Parser.ua_data self !! "name")) /\
  Parser.matched_regex (Parser.set_details self) = Parser.matched_regex self /\
  Parser.known (Parser.set_details self) = Parser.known self /\
  Parser.user_agent (Parser.set_details self) = Parser.user_agent self /\
  Parser.secondary_client (Parser.set_details self)
  = Parser.secondary_client self.
Proof.
  unfold Parser.set_details.
  repeat case_match;
    cbn [Parser.ua_data Parser.with_ua_data Parser.matched_regex Parser.known
           Parser.user_agent Parser.secondary_client];
    repeat split; try done;
    try (intros k Hk1 Hk2);
    rewrite ?lookup_insert_ne by done;
    rewrite ?lookup_insert_eq; try done.
  all: try (intros; by simplify_eq).
  all: match goal with
       | Hname : _ !! "name" = None |- _ => by rewrite Hname
       end.
Qed.

(** X12. When the main match has no capture groups, or there was no
    match, a second [set_details] finds nothing left to do. *)
Theorem set_details_twice (self : Parser.t) :
  match Parser.matched_regex self with
  | Some m => m_groups m = []
  | None => True
  end ->
  Parser.set_details (Parser.set_details self) = Parser.set_details self.
Proof.
  intros Hgroups.
  assert (Hstep : forall p : Parser.t,
             match Parser.matched_regex p with
             | Some m => m_groups m = []
             | None => True
             end ->
             Parser.set_details p
             = if negb (truthy (get (Parser.ua_data p) "name"))
                  && truthy (get (Parser.ua_data p) "version")
               then Parser.with_ua_data p
                      (<["version" := VStr ""]> (Parser.ua_data p))
               else Parser.with_ua_data p (Parser.ua_data p)).
  { intros p Hp. unfold Parser.set_details.
    destruct (Parser.matched_regex p) as [m|]; [by rewrite Hp|done]. }
  rewrite (Hstep self Hgroups).
  destruct (negb (truthy (get (Parser.ua_data self) "name"))
            && truthy (get (Parser.ua_data self) "version")) eqn:Hcond.
  - rewrite Hstep by exact Hgroups.
    cbn [Parser.ua_data Parser.with_ua_data].
    unfold get at 2. rewrite lookup_insert_eq. cbn [default truthy].
    change (truthy (from_option id VNone (Some (VStr "")))) with false.
    by rewrite andb_false_r.
  - rewrite Hstep by exact Hgroups.
    cbn [Parser.ua_data Parser.with_ua_data]. by rewrite Hcond.
Qed.

End SetDetails.

Lemma set_details_twice_witness :
  Parser.set_details (Parser.set_details windows_parser)
  = Parser.set_details windows_parser.
Proof. apply (set_details_twice windows_parser). reflexivity. Defined.

(** ** [parse], further *)

Section ParsingFurther.

Context `{Collaborators}.

Lemma _parse_listed_versions (rules : list Rule) (self : Parser.t) :
  listed_versions (Parser.ua_data self) ->
  Forall (fun rule => listed_versions (fields rule)) rules ->
  listed_versions (Parser.ua_data (Parser._parse rules self)).
Proof.
  intros Hself Hrules. induction Hrules as [|rule rules Hrule _ IH]; [done|].
  cbn [Parser._parse]. destruct (search _ _); [|done].
  cbn [Parser.ua_data Parser.with_match]. unfold listed_versions in *.
  destruct Hrule as [Hnone | [vs Hvs]].
  - by rewrite lookup_union_r.
  - right. exists vs. by apply lookup_union_Some_l.
Qed.

Lemma extract_version_listed (self : Parser.t) :
  listed_versions (Parser.ua_data self) ->
  is_Some (Parser.extract_version self).
Proof.
  unfold Parser.extract_version. intros [Hnone | [vs Hvs]].
  - by rewrite Hnone.
  - rewrite Hvs. by destruct (Parser.first_version _ _).
Qed.

(** What [parse] of the class [Parser] does once the lookup was no hit. *)
Lemma extract_details_stores (cache_name : string) (rules : list Rule)
    (self self' : Parser.t) (c c' : Cache) :
  Parser.extract_details (Parser.cls cache_name rules) self c
  = Some (self', c') ->
  Parser.ua_hash self' = Parser.ua_hash self /\
  exists entry,
    c !! Parser.ua_hash self = Some entry /\
    c' = <[Parser.ua_hash self :=
             <[cache_name := Parser.ua_data self']> entry]> c.
Proof.
  unfold Parser.extract_details.
  cbn [Parser.cls Parser.do_set_details Parser.cache_name].
  destruct (Parser.extract_version self) as [self1|] eqn:Hself1;
    [|discriminate].
  cbn [mbind option_bind].
  assert (Hhash : Parser.ua_hash (Parser.set_details self1)
                  = Parser.ua_hash self)
    by (by rewrite set_details_ua_hash, (extract_version_ua_hash _ _ Hself1)).
  unfold Parser.add_to_cache. rewrite Hhash.
  destruct (c !! Parser.ua_hash self) as [entry|] eqn:Hc; [|discriminate].
  cbn [mbind option_bind]. intros [= <- <-]. split; [done|]. by exists entry.
Qed.

(** X13. On rule lists whose ['versions'] fields, where present, are
    lists of sub-rules, [parse] of the class [Parser] raises nothing:
    it returns for every cache, as [get_from_cache] has made the entry
    that [add_to_cache] needs. *)
Theorem parse_returns (cache_name : string) (rules : list Rule)
    (self : Parser.t) (c : Cache) :
  listed_versions (Parser.ua_data self) ->
  Forall (fun rule => listed_versions (fields rule)) rules ->
  is_Some (Parser.parse (Parser.cls cache_name rules) self c).
Proof.
  intros Hself Hrules. unfold Parser.parse.
  destruct (Parser.get_from_cache _ self c) as [details c1] eqn:Hget.
  match goal with |- context [if ?b then _ else _] => destruct b end; [done|].
  unfold Parser.extract_details.
  cbn [Parser.cls Parser.do__parse Parser.do_set_details Parser.cache_name].
  destruct (extract_version_listed (Parser._parse rules self)) as [self1 Hself1];
    [by apply _parse_listed_versions|].
  rewrite Hself1. cbn [mbind option_bind].
  assert (Hhash : Parser.ua_hash (Parser.set_details self1)
                  = Parser.ua_hash self).
  { rewrite set_details_ua_hash, (extract_version_ua_hash _ _ Hself1).
    by rewrite _parse_ua_hash. }
  unfold Parser.add_to_cache. rewrite Hhash.
  unfold Parser.get_from_cache in Hget.
  destruct (c !! Parser.ua_hash self) as [entry|] eqn:Hc;
    injection Hget as <- <-.
  - by rewrite Hc.
  - by rewrite lookup_insert_eq.
Qed.

(** X14. A parse of the class [Parser] that returns has kept the hash
    of the parser and the cache entries of all other hashes; and either
    it was a hit, with parser and cache untouched, or the record it
    produced is what a lookup in the new cache now answers. *)
Theorem parse_stores_record (cache_name : string) (rules : list Rule)
    (self self' : Parser.t) (c c' : Cache) :
  Parser.parse (Parser.cls cache_name rules) self c = Some (self', c') ->
  Parser.ua_hash self' = Parser.ua_hash self /\
  (forall h : string, h <> Parser.ua_hash self -> c' !! h = c !! h) /\
  ((self' = self /\ c' = c) \/
   Parser.get_from_cache cache_name self' c'
   = (Some (Parser.ua_data self'), c')).
Proof.
  unfold Parser.parse.
  destruct (Parser.get_from_cache _ self c) as [details c1] eqn:Hget.
  assert (Hc1 : forall h : string,
             h <> Parser.ua_hash self -> c1 !! h = c !! h).
  { intros h Hh. unfold Parser.get_from_cache in Hget.
    destruct (c !! Parser.ua_hash self); injection Hget as <- <-; [done|].
    by rewrite lookup_insert_ne. }
  match goal with |- context [if ?b then _ else _] => destruct b eqn:Hhit end.
  - intros [= <- <-]. split; [done|]. split; [done|]. left. split; [done|].
    unfold Parser.get_from_cache in Hget.
    destruct (c !! Parser.ua_hash self); injection Hget as <- <-; [done|].
    cbn in Hhit. by rewrite bool_decide_eq_true_2 in Hhit.
  - cbn [Parser.cls Parser.do__parse Parser.cache_name].
    intros (Hhash & entry & Hentry & ->)%extract_details_stores.
    rewrite _parse_ua_hash in Hhash, Hentry |- *.
    split; [done|]. split.
    + intros h Hh. rewrite lookup_insert_ne by done. by apply Hc1.
    + right. unfold Parser.get_from_cache. rewrite Hhash.
      by rewrite !lookup_insert_eq.
Qed.

End ParsingFurther.

Lemma parse_returns_witness :
  is_Some
    (Parser.parse (Parser.cls "browser" [chrome_mobile_rule; chrome_rule])
       chrome_request ∅).
Proof.
  apply (parse_returns "browser" [chrome_mobile_rule; chrome_rule]
           chrome_request ∅).
  - left. reflexivity.
  - constructor; [left; reflexivity|].
    constructor; [left; reflexivity | constructor].
Defined.

Lemma parse_stores_record_witness :
  Parser.ua_hash (Parser._parse [chrome_rule] chrome_request)
  = Parser.ua_hash chrome_request /\
  (forall h : string,
     h <> Parser.ua_hash chrome_request ->
     (<["9f2c" := <["browser" := {[ "name" := VStr "Chrome" ]}]> ∅]>
        (<["9f2c" := ∅]> ∅) : Cache) !! h = (∅ : Cache) !! h) /\
  ((Parser._parse [chrome_rule] chrome_request = chrome_request /\
    (<["9f2c" := <["browser" := {[ "name" := VStr "Chrome" ]}]> ∅]>
       (<["9f2c" := ∅]> ∅) : Cache) = ∅) \/
   Parser.get_from_cache "browser" (Parser._parse [chrome_rule] chrome_request)
     (<["9f2c" := <["browser" := {[ "name" := VStr "Chrome" ]}]> ∅]>
        (<["9f2c" := ∅]> ∅))
   = (Some (Parser.ua_data (Parser._parse [chrome_rule] chrome_request)),
      <["9f2c" := <["browser" := {[ "name" := VStr "Chrome" ]}]> ∅]>
        (<["9f2c" := ∅]> ∅))).
Proof.
  apply (parse_stores_record "browser" [chrome_rule] chrome_request
           (Parser._parse [chrome_rule] chrome_request) ∅).
  vm_compute. reflexivity.
Defined.

Lemma parse_cold_then_warm_witness :
  Parser.parse (Parser.cls "browser" [chrome_rule])
    (Parser.__init__ "Mozilla/5.0 (X11; Linux x86_64) Chrome/120.0.0.0"
       "9f2c" "Mozilla/5.0(X11;Linuxx86_64)Chrome/120.0.0.0" None)
    (<["9f2c" := <["browser" := {[ "name" := VStr "Chrome" ]}]> ∅]>
       (<["9f2c" := ∅]> ∅))
  = Some (Parser.__init__ "Mozilla/5.0 (X11; Linux x86_64) Chrome/120.0.0.0"
            "9f2c" "Mozilla/5.0(X11;Linuxx86_64)Chrome/120.0.0.0" None,
          <["9f2c" := <["browser" := {[ "name" := VStr "Chrome" ]}]> ∅]>
            (<["9f2c" := ∅]> ∅)) /\
  Parser.is_known
    (Parser.__init__ "Mozilla/5.0 (X11; Linux x86_64) Chrome/120.0.0.0"
       "9f2c" "Mozilla/5.0(X11;Linuxx86_64)Chrome/120.0.0.0" None) = false /\
  Parser.is_known (Parser._parse [chrome_rule] chrome_request) = true.
Proof.
  apply (parse_cold_then_warm "browser" [chrome_rule]
           "Mozilla/5.0 (X11; Linux x86_64) Chrome/120.0.0.0" "9f2c"
           "Mozilla/5.0(X11;Linuxx86_64)Chrome/120.0.0.0" None ∅).
  - reflexivity.
  - vm_compute. reflexivity.
  - vm_compute. discriminate.
Defined.

(** ** [EngineVersion] and [Engine] *)

Section EngineParsers.

Context `{Collaborators}.

(** X16. The engine version that [EngineVersion.parse] returns never
    contains a slash: it is one piece of the matched text cut at the
    slashes. *)
Theorem engine_version_without_slash (user_agent : string) (engine : Value) :
  has_char "/" (EngineVersion.parse user_agent engine) = false.
Proof.
  unfold EngineVersion.parse.
  destruct (negb (truthy engine)); [reflexivity|].
  destruct (search _ user_agent) as [m|]; [|reflexivity].
  pose proof (split_pieces_without_sep "/"
                (substring (m_start m) (m_end m - m_start m) user_agent))
    as Hpieces.
  destruct (PyStr.split "/" _) as [|first [|second rest]]; try reflexivity.
  inversion Hpieces as [|? ? _ Hrest]; subst.
  by inversion Hrest.
Qed.

(** X17. A non-empty engine version comes only from a non-empty engine
    name whose pattern is found in the user agent with a slash inside
    the matched text: a match without a slash gives the empty text. *)
Theorem engine_version_needs_slash (user_agent : string) (engine : Value) :
  EngineVersion.parse user_agent engine <> "" ->
  truthy engine = true /\
  exists m : Match,
    search (engine_version_regex (py_str engine)) user_agent = Some m /\
    has_char "/" (substring (m_start m) (m_end m - m_start m) user_agent)
    = true.
Proof.
  unfold EngineVersion.parse.
  destruct (truthy engine); cbn [negb]; [|done]. intros Hparse.
  split; [done|].
  destruct (search _ user_agent) as [m|]; [|done].
  exists m. split; [done|].
  destruct (has_char "/" (substring _ _ user_agent)) eqn:Hslash; [done|].
  by rewrite (split_single _ _ Hslash) in Hparse.
Qed.

(** X18. After [Engine._parse] on a record that had no engine version,
    the record has an engine version exactly when it has a name. *)
Theorem engine_version_iff_name (self : Parser.t) :
  Parser.ua_data self !! "engine_version" = None ->
  Forall (fun rule => fields rule !! "engine_version" = None)
    engine_regex_list ->
  is_Some (Parser.ua_data (Engine._parse self) !! "engine_version") <->
  is_Some (Parser.ua_data (Engine._parse self) !! "name").
Proof.
  intros Hself Hrules. unfold Engine._parse.
  assert (Hnone : Parser.ua_data (Parser._parse engine_regex_list self)
                    !! "engine_version" = None).
  { induction Hrules as [|rule rules Hrule _ IH]; [done|].
    cbn [Parser._parse]. destruct (search _ _); [|done].
    cbn [Parser.ua_data Parser.with_match]. by rewrite lookup_union_r. }
  destruct (Parser.ua_data (Parser._parse engine_regex_list self) !! "name")
    as [engine|] eqn:Hname.
  - cbn [Parser.ua_data Parser.with_ua_data].
    rewrite lookup_insert_eq, lookup_insert_ne, Hname by done.
    split; by eexists.
  - by rewrite Hnone, Hname.
Qed.

End EngineParsers.

Lemma engine_version_needs_slash_witness :
  truthy (VStr "AppleWebKit") = true /\
  exists m : Match,
    search (@engine_version_regex slashed (@py_str slashed (VStr "AppleWebKit")))
      "Mozilla/5.0 (X11; Linux x86_64) AppleWebKit/537.36 Chrome/120.0.0.0"
    = Some m /\
    has_char "/"
      (substring (m_start m) (m_end m - m_start m)
         "Mozilla/5.0 (X11; Linux x86_64) AppleWebKit/537.36 Chrome/120.0.0.0")
    = true.
Proof.
  apply (@engine_version_needs_slash slashed
           "Mozilla/5.0 (X11; Linux x86_64) AppleWebKit/537.36 Chrome/120.0.0.0"
           (VStr "AppleWebKit")).
  vm_compute. discriminate.
Defined.

Lemma engine_version_iff_name_witness :
  is_Some (Parser.ua_data (@Engine._parse slashed webkit_request)
             !! "engine_version") <->
  is_Some (Parser.ua_data (@Engine._parse slashed webkit_request) !! "name").
Proof.
  apply (@engine_version_iff_name slashed webkit_request).
  - reflexivity.
  - constructor; [reflexivity | constructor].
Defined.

Example engine_version_of_webkit :
  Parser.ua_data (@Engine._parse slashed webkit_request) !! "engine_version"
  = Some (VStr "537.36").
Proof. reflexivity. Qed.

(** ** Client-hint reconciliation, further *)

Section ReconciliationFurther.

Context `{Collaborators}.

(** X19. An empty record meeting the hints of a browser takes the data
    of the hints whole, application identifier or brand regardless:
    [is_known()] then tells whether the hints held anything, while the
    attribute [known] stays what the matcher left. *)
Theorem hints_adopted_wholesale (self : Parser.t) (ch : ClientHints) :
  Parser.client_hints self = Some ch ->
  Parser.ua_data self = ∅ ->
  client_is_browser ch = true ->
  exists self',
    Browser.set_data_from_client_hints self = Some self' /\
    Parser.ua_data self' = client_data ch /\
    Parser.is_known self' = negb (bool_decide (client_data ch = ∅)) /\
    Parser.known self' = Parser.known self /\
    Parser.matched_regex self' = Parser.matched_regex self.
Proof.
  intros Hch Hempty Hbrowser. unfold Browser.set_data_from_client_hints.
  rewrite Hch, Hbrowser, bool_decide_eq_true_2 by done. by eexists.
Qed.

(** X20. Hints that carry an application identifier are merged over a
    record that is not replaced whole: every field of the hints
    overwrites the field of the record, every other field of the record
    stays. *)
Theorem hints_with_app_id_merged (self : Parser.t) (ch : ClientHints) :
  Parser.client_hints self = Some ch ->
  Parser.ua_data self <> ∅ \/ client_is_browser ch = false ->
  truthy (get (client_data ch) "app_id") = true ->
  exists self',
    Browser.set_data_from_client_hints self = Some self' /\
    forall k : string,
      Parser.ua_data self' !! k
      = match client_data ch !! k with
        | Some v => Some v
        | None => Parser.ua_data self !! k
        end.
Proof.
  intros Hch Hguard Happ. unfold Browser.set_data_from_client_hints.
  rewrite Hch, (wholesale_guard_false _ _ Hguard), Happ.
  eexists. split; [reflexivity|]. intros k.
  cbn [Parser.ua_data Parser.with_ua_data].
  destruct (client_data ch !! k) as [v|] eqn:Hk.
  - by apply lookup_union_Some_l.
  - by rewrite lookup_union_r.
Qed.

(** X21. The mobile name survives: when the hints, without application
    identifier, name a brand other than the DuckDuckGo one, the record
    is named that brand followed by " Mobile", and the Chromium guard
    does not apply, the reconciled record keeps the name of the record
    and its short name. *)
Theorem mobile_name_kept (self : Parser.t) (ch : ClientHints)
    (brand : string) :
  Parser.client_hints self = Some ch ->
  truthy (get (client_data ch) "app_id") = false ->
  client_data ch !! "name" = Some (VStr brand) ->
  brand <> "" ->
  brand <> "DuckDuckGo Privacy Browser" ->
  in_strs (VStr brand) ["Chromium"; "Chrome Webview"]
  && negb (in_strs (get_or (Parser.ua_data self) "short_name" (VStr ""))
             ["CR"; "CV"; "AN"]) = false ->
  Parser.name self = VStr (brand ++ " Mobile") ->
  exists self',
    Browser.set_data_from_client_hints self = Some self' /\
    Parser.name self' = VStr (brand ++ " Mobile") /\
    Browser.short_name self'
    = get_or (Parser.ua_data self) "short_name" (VStr "").
Proof.
  intros Hch Happ Hname Hbrand Hddg Hguard Hua.
  unfold Browser.set_data_from_client_hints. rewrite Hch.
  rewrite (wholesale_guard_false self ch)
    by (left; apply named_record_not_empty; rewrite Hua;
        apply truthy_text; by destruct brand).
  rewrite Happ. fold (Parser.name self).
  rewrite !(get_lookup_Some _ _ _ Hname).
  assert (Hor : py_or (VStr brand) (VStr "") = VStr brand).
  { unfold py_or. by rewrite (proj2 (truthy_text brand) Hbrand). }
  rewrite Hor. cbn [is_str py_str].
  rewrite (proj2 (String.eqb_neq _ _) Hddg).
  rewrite <- andb_assoc, Hguard, andb_false_r.
  rewrite Hua. cbn [is_str]. rewrite String.eqb_refl.
  eexists. split; [reflexivity|].
  unfold Parser.name, Browser.short_name, get_or.
  cbn [Parser.ua_data Parser.with_ua_data].
  by rewrite lookup_insert_eq, lookup_insert_ne, lookup_insert_eq by done.
Qed.

End ReconciliationFurther.

Lemma hints_adopted_wholesale_witness :
  exists self',
    Browser.set_data_from_client_hints (reconciled_input ∅ chrome_hints)
    = Some self' /\
    Parser.ua_data self' = chrome_hints /\
    Parser.is_known self' = negb (bool_decide (chrome_hints = ∅)) /\
    Parser.known self' = Parser.known (reconciled_input ∅ chrome_hints) /\
    Parser.matched_regex self'
    = Parser.matched_regex (reconciled_input ∅ chrome_hints).
Proof.
  apply (hints_adopted_wholesale (reconciled_input ∅ chrome_hints)
           {| client_data := chrome_hints; client_is_browser := true |});
    reflexivity.
Defined.

Lemma hints_with_app_id_merged_witness :
  exists self',
    Browser.set_data_from_client_hints
      (reconciled_input chrome_mobile_record duckduckgo_app_hints)
    = Some self' /\
    forall k : string,
      Parser.ua_data self' !! k
      = match duckduckgo_app_hints !! k with
        | Some v => Some v
        | None => chrome_mobile_record !! k
        end.
Proof.
  apply (hints_with_app_id_merged
           (reconciled_input chrome_mobile_record duckduckgo_app_hints)
           {| client_data := duckduckgo_app_hints;
              client_is_browser := true |}).
  - reflexivity.
  - left. vm_compute. discriminate.
  - reflexivity.
Defined.

Lemma mobile_name_kept_witness :
  exists self',
    Browser.set_data_from_client_hints
      (reconciled_input chrome_mobile_record chrome_hints) = Some self' /\
    Parser.name self' = VStr ("Chrome" ++ " Mobile") /\
    Browser.short_name self'
    = get_or chrome_mobile_record "short_name" (VStr "").
Proof.
  apply (mobile_name_kept
           (reconciled_input chrome_mobile_record chrome_hints)
           {| client_data := chrome_hints; client_is_browser := true |}
           "Chrome").
  - reflexivity.
  - reflexivity.
  - reflexivity.
  - discriminate.
  - discriminate.
  - reflexivity.
  - reflexivity.
Defined.

(** ** [set_engine] and the secondary client, further *)

Lemma engine_from_versions_last (client_version name : Value) (key : string)
    (pre : list (string * Value)) (d : UaData) :
  Browser.engine_from_versions client_version (pre ++ [(key, name)]) d
    !! "engine" = Some name /\
  Browser.engine_from_versions client_version (pre ++ [(key, name)]) d
    !! "engine_version" = Some client_version.
Proof.
  unfold Browser.engine_from_versions. rewrite fold_left_app.
  cbn [fold_left snd].
  by rewrite lookup_insert_eq, lookup_insert_ne, lookup_insert_eq by done.
Qed.

Section EngineFurther.

Context `{Collaborators}.

(** X22. [set_engine] writes four fields and nothing else: it leaves
    the cache as it is, every key other than ['short_name'], ['family'],
    ['engine'] and ['engine_version'] as it is, and the rest of the
    parser as it is. *)
Theorem set_engine_frame (self self' : Parser.t) (c c' : Cache) :
  Browser.set_engine self c = Some (self', c') ->
  c' = c /\
  (forall k : string,
     k <> "engine" -> k <> "engine_version" ->
     k <> "short_name" -> k <> "family" ->
     Parser.ua_data self' !! k = Parser.ua_data self !! k) /\
  Parser.known self' = Parser.known self /\
  Parser.matched_regex self' = Parser.matched_regex self /\
  Parser.secondary_client self' = Parser.secondary_client self.
Proof.
  intros Hs. split; [by eapply set_engine_keeps_cache|].
  split; [intros k ? ? ? ?; by eapply set_engine_keeps_field|].
  revert Hs. unfold Browser.set_engine. intros Hs.
  repeat case_match; simplify_option_eq;
    repeat match goal with
           | pair : (Parser.t * Cache)%type |- _ => destruct pair
           end;
    by simplify_eq.
Qed.

(** [set_engine] on a record whose engine is a non-empty descriptor
    and whose name is text. *)
Lemma set_engine_descriptor (self : Parser.t) (c : Cache)
    (browser : string) (engine : list (string * Value)) :
  Parser.ua_data self !! "engine" = Some (VDict engine) ->
  engine <> [] ->
  get_or (Parser.ua_data self) "name" (VStr "") = VStr browser ->
  Browser.set_engine self c
  = let d1 :=
      <["family" :=
          VStr (default browser
                  (FAMILY_FROM_ABBREV
                     !! default browser (BROWSER_TO_ABBREV !! lower browser)))]>
        (<["short_name" :=
             VStr (default browser (BROWSER_TO_ABBREV !! lower browser))]>
           (Parser.ua_data self)) in
    match default (VDict []) (assoc engine "versions") with
    | VDict versions =>
        Some (Parser.with_ua_data self
                (Browser.engine_from_versions
                   (py_or (get_or (Parser.ch_client_data self) "version"
                             (VStr ""))
                      (get_or (Parser.ua_data self) "version" (VStr "")))
                   versions d1), c)
    | _ => None
    end.
Proof.
  intros Hengine Hne Hname. unfold Browser.set_engine.
  assert (Htruthy : truthy (VDict engine) = true) by (by destruct engine).
  assert (Hget : get_or (Parser.ua_data self) "engine" (VStr "")
                 = VDict engine)
    by (unfold get_or; by rewrite Hengine).
  rewrite Hget, Htruthy. cbn [negb]. rewrite Hname. cbn zeta.
  set (d1 := <["family" := _]> (<["short_name" := _]> (Parser.ua_data self))).
  assert (Hd1e : d1 !! "engine" = Some (VDict engine)).
  { unfold d1. rewrite !lookup_insert_ne by done. exact Hengine. }
  assert (Hd1v : get_or d1 "version" (VStr "")
                 = get_or (Parser.ua_data self) "version" (VStr "")).
  { unfold get_or, d1. by rewrite !lookup_insert_ne by done. }
  assert (Hpy : py_or (get d1 "engine") (VDict []) = VDict engine).
  { unfold get. rewrite Hd1e. simpl. unfold py_or. by rewrite Htruthy. }
  by rewrite Hd1e, Hd1v, Hpy.
Qed.

(** X23. With an engine descriptor whose ['versions'] mapping is not
    empty, the engine becomes the name under the last entry of the
    mapping, whatever the keys of the mapping and the version of the
    browser are; the engine version becomes the version of the client
    hints, or that of the record when the hints have none. *)
Theorem set_engine_last_version (self : Parser.t) (c : Cache)
    (browser key : string) (engine pre : list (string * Value))
    (name : Value) :
  Parser.ua_data self !! "engine" = Some (VDict engine) ->
  assoc engine "versions" = Some (VDict (pre ++ [(key, name)])) ->
  get_or (Parser.ua_data self) "name" (VStr "") = VStr browser ->
  exists self',
    Browser.set_engine self c = Some (self', c) /\
    Parser.ua_data self' !! "engine" = Some name /\
    Parser.ua_data self' !! "engine_version"
    = Some (py_or (get_or (Parser.ch_client_data self) "version" (VStr ""))
                  (get_or (Parser.ua_data self) "version" (VStr ""))).
Proof.
  intros Hengine Hversions Hname.
  assert (Hne : engine <> []) by (intros ->; discriminate).
  rewrite (set_engine_descriptor self c browser engine Hengine Hne Hname).
  cbn zeta. rewrite Hversions. cbn [default].
  eexists. split; [reflexivity|].
  cbn [Parser.ua_data Parser.with_ua_data].
  apply engine_from_versions_last.
Qed.

(** X24. With an engine descriptor that has no ['versions'] mapping,
    the engine field stays the descriptor itself: its ['default'] entry
    is never read, no engine version is set, and only the short name
    and the family are written. *)
Theorem set_engine_without_versions (self : Parser.t) (c : Cache)
    (browser : string) (engine : list (string * Value)) :
  Parser.ua_data self !! "engine" = Some (VDict engine) ->
  engine <> [] ->
  assoc engine "versions" = None ->
  get_or (Parser.ua_data self) "name" (VStr "") = VStr browser ->
  exists self',
    Browser.set_engine self c = Some (self', c) /\
    Parser.ua_data self' !! "engine" = Some (VDict engine) /\
    Parser.ua_data self' !! "engine_version"
    = Parser.ua_data self !! "engine_version" /\
    Parser.ua_data self' !! "short_name"
    = Some (VStr (default browser (BROWSER_TO_ABBREV !! lower browser))).
Proof.
  intros Hengine Hne Hversions Hname.
  rewrite (set_engine_descriptor self c browser engine Hengine Hne Hname).
  cbn zeta. rewrite Hversions.
  eexists. split; [reflexivity|].
  cbn [Parser.ua_data Parser.with_ua_data Browser.engine_from_versions
         fold_left].
  rewrite !(lookup_insert_ne _ "family") by done.
  rewrite !(lookup_insert_ne _ "short_name" "engine") by done.
  rewrite !(lookup_insert_ne _ "short_name" "engine_version") by done.
  by rewrite lookup_insert_eq.
Qed.

(** X25. [get_secondary_client_data] ends in one of two states.  Either
    the extractor found nothing: the attribute [secondary_client] is
    emptied and the record is left as it was, a ['secondary_client'] key
    it may hold included.  Or it found a record: the attribute holds it
    and the record names it under ['secondary_client'], its other keys
    unchanged. *)
Theorem get_secondary_client_data_outcome (extractor : Parser.Class)
    (self self' : Parser.t) (c c' : Cache) :
  Browser.get_secondary_client_data extractor self c = Some (self', c') ->
  (Parser.secondary_client self' = ∅ /\
   Parser.ua_data self' = Parser.ua_data self) \/
  (Parser.secondary_client self' <> ∅ /\
   Parser.ua_data self' !! "secondary_client"
   = Some (VDict (map_to_list (Parser.secondary_client self'))) /\
   forall k : string,
     k <> "secondary_client" ->
     Parser.ua_data self' !! k = Parser.ua_data self !! k).
Proof.
  unfold Browser.get_secondary_client_data. intros Hs.
  destruct (Parser.parse extractor _ c) as [[parsed c1]|]; [|discriminate].
  cbn [mbind option_bind] in Hs.
  destruct (bool_decide (Parser.ua_data parsed = ∅)) eqn:Hparsed;
    cbn [negb] in Hs; injection Hs as <- <-.
  - left. done.
  - right. apply bool_decide_eq_false_1 in Hparsed.
    cbn [Parser.ua_data Parser.with_ua_data Parser.secondary_client
           Parser.with_secondary_client].
    split; [done|]. split; [by rewrite lookup_insert_eq|].
    intros k Hk. by rewrite lookup_insert_ne.
Qed.

End EngineFurther.

Lemma set_engine_frame_witness :
  (∅ : Cache) = ∅ /\
  (forall k : string,
     k <> "engine" -> k <> "engine_version" ->
     k <> "short_name" -> k <> "family" ->
     Parser.ua_data blink_resolved !! k = Parser.ua_data blink_browser !! k) /\
  Parser.known blink_resolved = Parser.known blink_browser /\
  Parser.matched_regex blink_resolved = Parser.matched_regex blink_browser /\
  Parser.secondary_client blink_resolved
  = Parser.secondary_client blink_browser.
Proof.
  apply (set_engine_frame blink_browser blink_resolved ∅ ∅).
  reflexivity.
Defined.

Lemma set_engine_last_version_witness :
  exists self',
    Browser.set_engine blink_browser ∅ = Some (self', ∅) /\
    Parser.ua_data self' !! "engine" = Some (VStr "Blink") /\
    Parser.ua_data self' !! "engine_version"
    = Some (py_or (get_or (Parser.ch_client_data blink_browser) "version"
                     (VStr ""))
              (get_or (Parser.ua_data blink_browser) "version" (VStr ""))).
Proof.
  apply (set_engine_last_version blink_browser ∅ "Chrome" "28"
           blink_descriptor [] (VStr "Blink"));
    reflexivity.
Defined.

Lemma set_engine_without_versions_witness :
  exists self',
    Browser.set_engine default_only_browser ∅ = Some (self', ∅) /\
    Parser.ua_data self' !! "engine" = Some (VDict default_only_descriptor) /\
    Parser.ua_data self' !! "engine_version"
    = Parser.ua_data default_only_browser !! "engine_version" /\
    Parser.ua_data self' !! "short_name"
    = Some (VStr (default "Chrome" (BROWSER_TO_ABBREV !! lower "Chrome"))).
Proof.
  apply (set_engine_without_versions default_only_browser ∅ "Chrome"
           default_only_descriptor).
  - reflexivity.
  - discriminate.
  - reflexivity.
  - reflexivity.
Defined.

Lemma get_secondary_client_data_outcome_witness :
  (Parser.secondary_client
     (Parser.with_secondary_client
        (Parser._parse browser_regex_list chrome_mobile_request) ∅) = ∅ /\
   Parser.ua_data
     (Parser.with_secondary_client
        (Parser._parse browser_regex_list chrome_mobile_request) ∅)
   = Parser.ua_data (Parser._parse browser_regex_list chrome_mobile_request))
  \/
  (Parser.secondary_client
     (Parser.with_secondary_client
        (Parser._parse browser_regex_list chrome_mobile_request) ∅) <> ∅ /\
   Parser.ua_data
     (Parser.with_secondary_client
        (Parser._parse browser_regex_list chrome_mobile_request) ∅)
     !! "secondary_client"
   = Some (VDict (map_to_list
                    (Parser.secondary_client
                       (Parser.with_secondary_client
                          (Parser._parse browser_regex_list
                             chrome_mobile_request) ∅)))) /\
   forall k : string,
     k <> "secondary_client" ->
     Parser.ua_data
       (Parser.with_secondary_client
          (Parser._parse browser_regex_list chrome_mobile_request) ∅) !! k
     = Parser.ua_data (Parser._parse browser_regex_list chrome_mobile_request)
         !! k).
Proof.
  apply (get_secondary_client_data_outcome WholeNameExtractor
           (Parser._parse browser_regex_list chrome_mobile_request)
           (Parser.with_secondary_client
              (Parser._parse browser_regex_list chrome_mobile_request) ∅)
           ∅ (<["5b1e" := <["whole_name_extractor" := ∅]> ∅]>
                (<["5b1e" := ∅]> ∅))).
  vm_compute. reflexivity.
Defined.


